(** * The cylindrical-shell frequency example of the FEM workbench

    A shallow embedding of [femexamples/frequency_cylindrical_shell.py]:
    the three functions of the file ([get_information], [get_explanation],
    [setup]) over a model of the host document, and the properties of
    [setup] that the specification of the example states.

    The script only issues requests to the host application.  The host is
    modelled as one document holding a store of objects; a Python object
    reference is the position of the object in that store, and every request
    of the script is appended to a call log. *)

From Stdlib Require Import String Ascii ZArith List Bool Lia PrimFloat DecimalString.
From stdpp Require Import base option list gmap strings.

Local Open Scope string_scope.
Local Open Scope list_scope.
Set Warnings "-inexact-float".

(** ** Data model of the host *)

Module Host.

(** A Python reference to a document object: its slot in the store. *)
Abbreviation handle := nat (only parsing).

(** Property values, as the script assigns them. *)
Inductive value :=
| VBool (b : bool)
| VInt (z : Z)
| VFloat (f : float)
| VStr (s : string)
| VDict (m : gmap string string)
| VLink (h : handle)
| VLinkSubList (l : list (handle * string))
| VGroup (l : list handle)
| VMeshData.

(** The kinds of document object the script meets (spec, section 3); an
    object of a document passed in may be of any other type. *)
Inductive kind :=
| TextDocument
| PartCylinder
| PartFace
| FemAnalysis
| SolverCalculix
| SolverCcxTools
| MaterialSolid
| ConstraintDisplacement
| ElementGeometry2D
| MeshGmsh
| OtherType (typeid : string).

Definition is_solver (k : kind) : bool :=
  match k with SolverCalculix | SolverCcxTools => true | _ => false end.

Definition is_face (k : kind) : bool :=
  match k with PartFace => true | _ => false end.

Record object := { Name : string; Kind : kind; Props : gmap string value }.

(** A removed object leaves its slot empty: references to it go stale. *)
Record document := { DocName : string; Objects : list (option object) }.

(** The requests the script sends to the host, in the order sent. *)
Inductive event :=
| AddObject (k : kind) (name : string) (h : handle)
| SetAttr (h : handle) (p : string) (v : value)
| Recompute
| ViewAxonometric
| FitAll
| Downgrade (h : handle)
| RemoveObject (name : string)
| GroupAdd (a h : handle)
| PrintWarning (s : string)
| PrintMessage (s : string)
| CreateMesh (h : handle).

Inductive exn :=
| UnboundLocalError (var : string)
| AttributeError (attr : string)
| IndexError
| ReferenceError (h : handle)
| TypeError
| HostError (msg : string).

Record world := { doc : document; calls : list event }.

(** The values of the dictionary that [get_information] returns. *)
Inductive info :=
| InfoStr (s : string)
| InfoList (l : list string).

(** What is outside the script and outside the document: whether a
    graphical front end is up, the header text of the example manager, and
    what the external mesher answers (a status text, or a raised error). *)
Record environment := {
  GuiUp : bool;
  get_header : gmap string info -> string;
  gmsh_answer : exn + string
}.

(** ** Computations: state passing with exceptions

    An exception leaves the document as it was when it was raised. *)

Inductive outcome (A : Type) :=
| Returned (a : A) (w : world)
| Raised (e : exn) (w : world).
Arguments Returned {A} a w.
Arguments Raised {A} e w.

Definition M (A : Type) := world -> outcome A.

Definition ret {A} (a : A) : M A := fun w => Returned a w.

Definition raise {A} (e : exn) : M A := fun w => Raised e w.

Definition bind {A B} (m : M A) (f : A -> M B) : M B :=
  fun w => match m w with
           | Returned a w' => f a w'
           | Raised e w' => Raised e w'
           end.

Definition final_world {A} (o : outcome A) : world :=
  match o with Returned _ w => w | Raised _ w => w end.

Definition log (e : event) : M unit :=
  fun w => Returned tt {| doc := doc w; calls := calls w ++ [e] |}.

Definition get_objects : M (list (option object)) :=
  fun w => Returned (Objects (doc w)) w.

Definition put_objects (objs : list (option object)) : M unit :=
  fun w => Returned tt
    {| doc := {| DocName := DocName (doc w); Objects := objs |};
       calls := calls w |}.

End Host.

Export Host.

Declare Scope py_scope.
Delimit Scope py_scope with py.
Notation "x <- m ;; k" := (bind m (fun x => k))
  (at level 100, m at next level, right associativity) : py_scope.
Notation "m ;;; k" := (bind m (fun _ => k))
  (at level 100, right associativity) : py_scope.
Local Open Scope py_scope.

(** ** The host's automatic object names *)

Definition names (objs : list (option object)) : list string :=
  omap (fmap Name) objs.

Definition is_digit (c : ascii) : bool :=
  let n := nat_of_ascii c in (48 <=? n)%nat && (n <=? 57)%nat.

Fixpoint number_of (s : string) (acc : nat) : option nat :=
  match s with
  | EmptyString => Some acc
  | String c r =>
      if is_digit c then number_of r (10 * acc + (nat_of_ascii c - 48))
      else None
  end.

Fixpoint strip_prefix (p s : string) : option string :=
  match p, s with
  | EmptyString, _ => Some s
  | String a p', String b s' => if Ascii.eqb a b then strip_prefix p' s' else None
  | String _ _, EmptyString => None
  end.

(** The counter a name in use carries behind [base]; 0 when it carries none. *)
Definition suffix_of (base name : string) : nat :=
  match strip_prefix base name with
  | Some (String c r) => default 0 (number_of (String c r) 0)
  | _ => 0
  end.

Definition highest_suffix (base : string) (used : list string) : nat :=
  foldr (fun n m => Nat.max (suffix_of base n) m) 0 used.

Fixpoint zeros (n : nat) : string :=
  match n with O => EmptyString | S n' => String "0" (zeros n') end.

Definition pad3 (n : nat) : string :=
  let s := NilEmpty.string_of_uint (Nat.to_uint n) in
  zeros (3 - String.length s) +:+ s.

(** Modelled from the spec: the host's auto-generated names (sections 4.2
    and 9: Face, Face001, Face002).  A requested name that is free is kept;
    one in use gets a three-digit counter, one above the highest counter
    that a name with the same base carries. *)
Definition getUniqueObjectName (used : list string) (base : string) : string :=
  if decide (base ∈ used) then base +:+ pad3 (S (highest_suffix base used))
  else base.

(** ** Requests to the document *)

Definition new_object (k : kind) (base : string) : M handle :=
  objs <- get_objects ;;
  put_objects (objs ++ [Some {| Name := getUniqueObjectName (names objs) base;
                                Kind := k; Props := ∅ |}]) ;;;
  ret (length objs).

(** Modelled from the spec: object creation, [addObject] with a type tag and
    a name (section 6). *)
Definition addObject (k : kind) (name : string) : M handle :=
  h <- new_object k name ;;
  log (AddObject k name h) ;;;
  ret h.

(** Dereferencing a Python reference: the object is gone once removed. *)
Definition get_object (h : handle) : M object :=
  objs <- get_objects ;;
  match objs !! h with
  | Some (Some o) => ret o
  | _ => raise (ReferenceError h)
  end.

Definition set_prop (p : string) (v : value) (o : object) : object :=
  {| Name := Name o; Kind := Kind o; Props := <[p := v]> (Props o) |}.

Definition set_object (h : handle) (o : object) : M unit :=
  objs <- get_objects ;;
  put_objects (<[h := Some o]> objs).

(** Modelled from the spec: attribute assignment (section 6). *)
Definition setattr (h : handle) (p : string) (v : value) : M unit :=
  log (SetAttr h p v) ;;;
  o <- get_object h ;;
  set_object h (set_prop p v o).

Definition getattr (h : handle) (p : string) : M value :=
  o <- get_object h ;;
  match Props o !! p with
  | Some v => ret v
  | None => raise (AttributeError p)
  end.

(** Modelled from the spec: the recompute trigger (section 6). *)
Definition recompute : M unit := log Recompute.

Definition find_object (name : string) (objs : list (option object))
  : option (nat * option object) :=
  list_find (fun slot => Name <$> slot = Some name) objs.

(** [doc.Face]: the document object of that name, as an attribute of the
    document. *)
Definition doc_attr (name : string) : M handle :=
  objs <- get_objects ;;
  match find_object name objs with
  | Some (h, _) => ret h
  | None => raise (AttributeError name)
  end.

(** Modelled from the spec: removal by name; a name that is not in the
    document is a lookup failure of the document store (section 4.2). *)
Definition removeObject (name : string) : M unit :=
  log (RemoveObject name) ;;;
  objs <- get_objects ;;
  match find_object name objs with
  | Some (h, _) => put_objects (<[h := None]> objs)
  | None => raise (HostError ("No document object found with name " +:+ name))
  end.

(** Modelled from the spec: the downgrade operation decomposes a solid into
    its boundary faces and deletes the original solid (section 4.2).  The
    boundary of a cylinder is its lateral face and its two end faces; the
    faces are new objects with the base name Face. *)
Definition downgrade (h : handle) (delete : bool) : M unit :=
  log (Downgrade h) ;;;
  o <- get_object h ;;
  match Kind o with
  | PartCylinder =>
      new_object PartFace "Face" ;;;
      new_object PartFace "Face" ;;;
      new_object PartFace "Face" ;;;
      if delete then
        objs <- get_objects ;; put_objects (<[h := None]> objs)
      else ret tt
  | _ => ret tt
  end.

(** Modelled from the spec: the analysis container aggregates its members as
    a flat set (section 3); [addObject] on it answers with the list of the
    objects it has added. *)
Definition group_addObject (a h : handle) : M (list handle) :=
  log (GroupAdd a h) ;;;
  o <- get_object a ;;
  match Props o !! "Group" with
  | Some (VGroup l) =>
      if decide (h ∈ l) then ret []
      else set_object a (set_prop "Group" (VGroup (l ++ [h])) o) ;;; ret [h]
  | Some _ => raise TypeError
  | None => raise (AttributeError "Group")
  end.

(** ** The collaborators of the script: ObjectsFem, GmshTools, manager *)

(** Modelled from the spec: the analysis container, created with no member
    (section 3). *)
Definition makeAnalysis (name : string) : M handle :=
  h <- addObject FemAnalysis name ;;
  o <- get_object h ;;
  set_object h (set_prop "Group" (VGroup []) o) ;;;
  ret h.

(** Modelled from the spec: the solver objects, which hold the solve-type
    parameters (section 3); the script assigns every parameter it relies on. *)
Definition makeSolverCalculix (name : string) : M handle :=
  addObject SolverCalculix name.

Definition makeSolverCalculixCcxTools (name : string) : M handle :=
  addObject SolverCcxTools name.

(** Modelled from the spec: the material object, a property mapping
    (section 3), empty when created. *)
Definition makeMaterialSolid (name : string) : M handle :=
  h <- addObject MaterialSolid name ;;
  o <- get_object h ;;
  set_object h (set_prop "Material" (VDict ∅) o) ;;;
  ret h.

(** Modelled from the spec: the displacement-constraint object (section 3). *)
Definition makeConstraintDisplacement (name : string) : M handle :=
  addObject ConstraintDisplacement name.

(** Modelled from the spec: the thickness property object, a scalar shell
    thickness (section 3); the maker takes the thickness and stores it. *)
Definition makeElementGeometry2D (thickness : Z) : M handle :=
  h <- addObject ElementGeometry2D "ElementGeometry2D" ;;
  setattr h "Thickness" (VInt thickness) ;;;
  ret h.

(** Modelled from the spec: the mesh object (section 3). *)
Definition makeMeshGmsh (name : string) : M handle :=
  addObject MeshGmsh name.

(** Modelled from the spec: the meshing engine consumes the mesh object,
    produces mesh data in place and returns a status text; a failure of it
    is a raised error (sections 5 and 6). *)
Definition create_mesh (env : environment) (mesh : handle) : M string :=
  log (CreateMesh mesh) ;;;
  match gmsh_answer env with
  | inl e => raise e
  | inr status =>
      o <- get_object mesh ;;
      set_object mesh (set_prop "FemMesh" VMeshData o) ;;;
      ret status
  end.

(** Modelled from the spec: document initialisation (section 2, step 1): a
    new document owns no object. *)
Definition init_doc : document := {| DocName := "Unnamed"; Objects := [] |}.

(** The explanation object of the example manager: a text object that holds
    the explanation. *)
Definition add_explanation_obj (the_text : string) : M handle :=
  h <- addObject TextDocument "Explanation_Report" ;;
  setattr h "Text" (VStr the_text) ;;;
  ret h.

(** Python: reading a local variable that no branch has assigned. *)
Definition local {A} (var : string) (x : option A) : M A :=
  match x with
  | Some a => ret a
  | None => raise (UnboundLocalError var)
  end.

(** Python: [l[0]]. *)
Definition item0 {A} (l : list A) : M A :=
  match l with
  | a :: _ => ret a
  | [] => raise IndexError
  end.

(** ** The functions of the file *)

Definition nl : string := String (ascii_of_nat 10) EmptyString.

Definition get_information : gmap string info :=
  <["name" := InfoStr "Frequency Analysis Cylindrical Shell"]>
  (<["meshtype" := InfoStr "face"]>
  (<["meshelement" := InfoStr "Quad4"]>
  (<["constraints" := InfoList ["fixed"]]>
  (<["solvers" := InfoList ["calculix"; "ccxtools"]]>
  (<["material" := InfoStr "solid"]>
  (<["equation" := InfoStr "frequency"]> ∅)))))).

Definition get_explanation (header : string) : string :=
  header +:+ nl +:+ nl
  +:+ "To run the example from Python console use:" +:+ nl
  +:+ "from femexamples.frequency_cylindrical_shell import setup" +:+ nl
  +:+ "setup()" +:+ nl +:+ nl +:+ nl
  +:+ "See forum topic post:" +:+ nl
  +:+ "https://forum.freecadweb.org/viewtopic.php?f=18&t=65382#p564156" +:+ nl
  +:+ "frequency analysis for cylindrical shell" +:+ nl +:+ nl.

Definition unknown_solver_warning (solvertype : string) : string :=
  "Not known or not supported solver type: " +:+ solvertype
  +:+ ". No solver object was created." +:+ nl.

Section Setup.

Variable env : environment.

(** Lines 78-86: the cylinder. *)
Definition create_cylinder : M handle :=
  cyl_obj <- addObject PartCylinder "Cylinder" ;;
  setattr cyl_obj "Radius" (VInt 5000) ;;;
  setattr cyl_obj "Height" (VInt 5000) ;;;
  recompute ;;;
  (if GuiUp env then log ViewAxonometric ;;; log FitAll else ret tt) ;;;
  ret cyl_obj.

(** Lines 88-92: the cylindrical shell. *)
Definition create_cylindrical_shell (cyl_obj : handle) : M unit :=
  downgrade cyl_obj true ;;;
  removeObject "Face001" ;;;
  removeObject "Face002" ;;;
  recompute.

(** Lines 97-118: the solver. *)
Definition create_solver (solvertype : string) (analysis : handle) : M unit :=
  solver_obj <-
    (if String.eqb solvertype "calculix" then
       h <- makeSolverCalculix "SolverCalculiX" ;; ret (Some h)
     else if String.eqb solvertype "ccxtools" then
       h <- makeSolverCalculixCcxTools "CalculiXccxTools" ;;
       setattr h "WorkingDir" (VStr "") ;;;
       ret (Some h)
     else
       log (PrintWarning (unknown_solver_warning solvertype)) ;;;
       ret None) ;;
  (if String.eqb solvertype "calculix" || String.eqb solvertype "ccxtools" then
     h <- local "solver_obj" solver_obj ;;
     setattr h "SplitInputWriter" (VBool false) ;;;
     setattr h "AnalysisType" (VStr "frequency") ;;;
     setattr h "GeometricalNonlinearity" (VStr "linear") ;;;
     setattr h "ThermoMechSteadyState" (VBool false) ;;;
     setattr h "MatrixSolverType" (VStr "default") ;;;
     setattr h "IterationsControlParameterTimeUse" (VBool false) ;;;
     setattr h "EigenmodesCount" (VInt 10) ;;;
     setattr h "EigenmodeHighLimit" (VFloat 1000000%float) ;;;
     setattr h "EigenmodeLowLimit" (VFloat 0.01%float)
   else ret tt) ;;;
  h <- local "solver_obj" solver_obj ;;
  group_addObject analysis h ;;;
  ret tt.

(** Lines 120-130: the material. *)
Definition create_material (analysis : handle) : M handle :=
  m <- makeMaterialSolid "MechanicalMaterial" ;;
  added <- group_addObject analysis m ;;
  material_obj <- item0 added ;;
  v <- getattr material_obj "Material" ;;
  match v with
  | VDict mat =>
      let mat := <["Name" := "Steel-Generic"]> mat in
      let mat := <["YoungsModulus" := "210 GPa"]> mat in
      let mat := <["PoissonRatio" := "0.30"]> mat in
      let mat := <["Density" := "7900 kg/m^3"]> mat in
      setattr material_obj "Material" (VDict mat) ;;;
      group_addObject analysis material_obj ;;;
      ret material_obj
  | _ => raise TypeError
  end.

(** Lines 132-144: the displacement constraint. *)
Definition create_constraint (analysis : handle) : M handle :=
  con_disp_xyz <- makeConstraintDisplacement "Fix_Z" ;;
  face <- doc_attr "Face" ;;
  setattr con_disp_xyz "References" (VLinkSubList [(face, "Edge2")]) ;;;
  setattr con_disp_xyz "xFix" (VBool false) ;;;
  setattr con_disp_xyz "xFree" (VBool true) ;;;
  setattr con_disp_xyz "xDisplacement" (VFloat 0%float) ;;;
  setattr con_disp_xyz "yFix" (VBool false) ;;;
  setattr con_disp_xyz "yFree" (VBool true) ;;;
  setattr con_disp_xyz "yDisplacement" (VFloat 0%float) ;;;
  setattr con_disp_xyz "zFix" (VBool true) ;;;
  setattr con_disp_xyz "zFree" (VBool false) ;;;
  setattr con_disp_xyz "zDisplacement" (VFloat 0%float) ;;;
  group_addObject analysis con_disp_xyz ;;;
  ret con_disp_xyz.

(** Lines 146-148: the shell thickness. *)
Definition create_thickness (analysis : handle) : M handle :=
  geo_thickness <- makeElementGeometry2D 10 ;;
  group_addObject analysis geo_thickness ;;;
  ret geo_thickness.

(** Lines 150-166: the mesh. *)
Definition create_femmesh (analysis : handle) : M handle :=
  femmesh_obj <- makeMeshGmsh "Cylinder_Shell_Mesh" ;;
  face <- doc_attr "Face" ;;
  setattr femmesh_obj "Part" (VLink face) ;;;
  setattr femmesh_obj "ElementDimension" (VStr "2D") ;;;
  setattr femmesh_obj "ElementOrder" (VStr "2nd") ;;;
  setattr femmesh_obj "Algorithm2D" (VStr "Packing Parallelograms") ;;;
  setattr femmesh_obj "RecombinationAlgorithm" (VStr "Simple") ;;;
  setattr femmesh_obj "HighOrderOptimize" (VStr "Optimization") ;;;
  setattr femmesh_obj "RecombineAll" (VBool true) ;;;
  setattr femmesh_obj "SecondOrderLinear" (VBool true) ;;;
  setattr femmesh_obj "CharacteristicLengthMax" (VStr "300.0 mm") ;;;
  error <- create_mesh env femmesh_obj ;;
  log (PrintMessage error) ;;;
  group_addObject analysis femmesh_obj ;;;
  ret femmesh_obj.

(** The locals of [setup] that the properties below speak of. *)
Record frame := {
  analysis : handle;
  material_obj : handle;
  con_disp_xyz : handle;
  geo_thickness : handle;
  femmesh_obj : handle
}.

(** Lines 72-92: the explanation object and the geometry. *)
Definition setup_geometry : M unit :=
  add_explanation_obj (get_explanation (get_header env get_information)) ;;;
  cyl_obj <- create_cylinder ;;
  create_cylindrical_shell cyl_obj.

(** Lines 94-167: the analysis and its members. *)
Definition setup_analysis (solvertype : string) : M frame :=
  a <- makeAnalysis "Analysis" ;;
  create_solver solvertype a ;;;
  m <- create_material a ;;
  c <- create_constraint a ;;
  t <- create_thickness a ;;
  f <- create_femmesh a ;;
  recompute ;;;
  ret {| analysis := a; material_obj := m; con_disp_xyz := c;
         geo_thickness := t; femmesh_obj := f |}.

Definition setup_body (solvertype : string) : M frame :=
  setup_geometry ;;; setup_analysis solvertype.

Definition start (doc : option document) : world :=
  {| doc := match doc with None => init_doc | Some d => d end; calls := [] |}.

(** [setup(doc=None, solvertype="ccxtools")]; on return the value is the
    document, which is the document of the final world. *)
Definition setup (doc : option document) (solvertype : string)
  : outcome document :=
  match setup_body solvertype (start doc) with
  | Returned _ w => Returned (Host.doc w) w
  | Raised e w => Raised e w
  end.

End Setup.

(** ** Reading the final document *)

Definition object_at (w : world) (h : handle) : option object :=
  mjoin (Objects (doc w) !! h).

Definition prop_of (w : world) (h : handle) (p : string) : option value :=
  o ← object_at w h; Props o !! p.

Definition kind_of (w : world) (h : handle) : option kind :=
  Kind <$> object_at w h.

(** The members of an analysis container. *)
Definition members (w : world) (a : handle) : list handle :=
  match prop_of w a "Group" with
  | Some (VGroup l) => l
  | _ => []
  end.

Definition has_kind (w : world) (p : kind -> bool) (h : handle) : bool :=
  match kind_of w h with Some k => p k | None => false end.

Definition solvers_of (w : world) (a : handle) : list handle :=
  List.filter (has_kind w is_solver) (members w a).

(** The face-type objects of a document. *)
Definition faces (d : document) : list object :=
  List.filter (fun o => is_face (Kind o)) (omap id (Objects d)).

(** What the console has received, in order. *)
Inductive console_line :=
| Warning (s : string)
| Message (s : string).

Definition console_of (e : event) : option console_line :=
  match e with
  | PrintWarning s => Some (Warning s)
  | PrintMessage s => Some (Message s)
  | _ => None
  end.

Definition console (w : world) : list console_line :=
  omap console_of (calls w).

(** The attach requests that an analysis has received for one object. *)
Definition is_attach (a h : handle) (e : event) : bool :=
  match e with
  | GroupAdd a' h' => Nat.eqb a a' && Nat.eqb h h'
  | _ => false
  end.

Definition attach_requests (w : world) (a h : handle) : nat :=
  length (List.filter (is_attach a h) (calls w)).

(** The construction steps of section 2, as the requests that make them up. *)
Inductive step :=
| CylinderCreation
| Downgrading
| Pruning (name : string)
| AnalysisCreation
| SolverCreation
| MaterialCreation
| ConstraintCreation
| ThicknessCreation
| MeshCreation
| ExternalMeshing
| Recomputation.

Definition step_of (e : event) : option step :=
  match e with
  | AddObject PartCylinder _ _ => Some CylinderCreation
  | Downgrade _ => Some Downgrading
  | RemoveObject name => Some (Pruning name)
  | AddObject FemAnalysis _ _ => Some AnalysisCreation
  | AddObject SolverCalculix _ _ => Some SolverCreation
  | AddObject SolverCcxTools _ _ => Some SolverCreation
  | AddObject MaterialSolid _ _ => Some MaterialCreation
  | AddObject ConstraintDisplacement _ _ => Some ConstraintCreation
  | AddObject ElementGeometry2D _ _ => Some ThicknessCreation
  | AddObject MeshGmsh _ _ => Some MeshCreation
  | CreateMesh _ => Some ExternalMeshing
  | Recompute => Some Recomputation
  | _ => None
  end.

Definition steps (w : world) : list step := omap step_of (calls w).

(** The order of section 2: the cylinder and its recomputation, the
    downgrade and the pruning of the two auxiliary faces, the analysis
    container, the solver, the material, the constraint, the thickness, the
    mesh and its meshing, the final recomputation. *)
Definition geometry_steps : list step :=
  [CylinderCreation; Recomputation; Downgrading; Pruning "Face001";
   Pruning "Face002"; Recomputation].

Definition analysis_steps : list step :=
  [AnalysisCreation; SolverCreation; MaterialCreation; ConstraintCreation;
   ThicknessCreation; MeshCreation; ExternalMeshing; Recomputation].


Definition is_create_mesh (e : event) : bool :=
  match e with CreateMesh _ => true | _ => false end.

(** Whether the run has reached the meshing step. *)
Definition meshing_requested (evs : list event) : bool :=
  existsb is_create_mesh evs.

Definition known_solver (solvertype : string) : bool :=
  String.eqb solvertype "calculix" || String.eqb solvertype "ccxtools".

(** How lines 72-92 can raise: a name to prune is not in the document. *)
Definition geometry_raised (e : exn) (evs : list event) : Prop :=
  omap step_of evs `prefix_of` geometry_steps
  /\ meshing_requested evs = false
  /\ omap console_of evs = []
  /\ exists name, e = HostError ("No document object found with name " +:+ name).

(** How lines 94-167 can raise: the document has no object named Face, the
    mesher fails, or the solver type is not a known one. *)
Definition analysis_raised (env : environment) (solvertype : string)
    (e : exn) (evs : list event) : Prop :=
  omap step_of evs `prefix_of` analysis_steps
  /\ (meshing_requested evs = true -> gmsh_answer env = inl e)
  /\ (known_solver solvertype = true
        /\ omap console_of evs = []
        /\ (e = AttributeError "Face" \/ gmsh_answer env = inl e)
      \/ known_solver solvertype = false
        /\ e = UnboundLocalError "solver_obj"
        /\ exists a,
             evs = [AddObject FemAnalysis "Analysis" a;
                    PrintWarning (unknown_solver_warning solvertype)]).

(** ** Running the requests on a document that extends a given one

    [World n d l lg]: the document named [n] holds the objects [d], which
    were there before, followed by [l]; [lg] is the call log. *)

Definition World (n : string) (d l : list (option object)) (lg : list event)
  : world :=
  {| doc := {| DocName := n; Objects := d ++ l |}; calls := lg |}.

Definition fresh_object (k : kind) (nm : string) : object :=
  {| Name := nm; Kind := k; Props := ∅ |}.

(** ** The object graph that [setup] builds (spec, section 3)

    Each object is written as the assignments of the script made it, the
    last assignment outermost. *)

Definition solver_settings (o : object) : object :=
  set_prop "EigenmodeLowLimit" (VFloat 0.01%float)
    (set_prop "EigenmodeHighLimit" (VFloat 1000000%float)
       (set_prop "EigenmodesCount" (VInt 10)
          (set_prop "IterationsControlParameterTimeUse" (VBool false)
             (set_prop "MatrixSolverType" (VStr "default")
                (set_prop "ThermoMechSteadyState" (VBool false)
                   (set_prop "GeometricalNonlinearity" (VStr "linear")
                      (set_prop "AnalysisType" (VStr "frequency")
                         (set_prop "SplitInputWriter" (VBool false) o)))))))).

Definition solver_object (ccxtools : bool) (nm : string) : object :=
  solver_settings
    (if ccxtools
     then set_prop "WorkingDir" (VStr "") (fresh_object SolverCcxTools nm)
     else fresh_object SolverCalculix nm).

Definition solver_kind (ccxtools : bool) : kind :=
  if ccxtools then SolverCcxTools else SolverCalculix.

Definition solver_name (ccxtools : bool) : string :=
  if ccxtools then "CalculiXccxTools" else "SolverCalculiX".

Definition solver_type (ccxtools : bool) : string :=
  if ccxtools then "ccxtools" else "calculix".

Definition steel : gmap string string :=
  <["Density" := "7900 kg/m^3"]>
    (<["PoissonRatio" := "0.30"]>
       (<["YoungsModulus" := "210 GPa"]>
          (<["Name" := "Steel-Generic"]> ∅))).

Definition material_object (nm : string) : object :=
  set_prop "Material" (VDict steel)
    (set_prop "Material" (VDict ∅) (fresh_object MaterialSolid nm)).

Definition constraint_object (face : handle) (nm : string) : object :=
  set_prop "zDisplacement" (VFloat 0%float)
    (set_prop "zFree" (VBool false)
       (set_prop "zFix" (VBool true)
          (set_prop "yDisplacement" (VFloat 0%float)
             (set_prop "yFree" (VBool true)
                (set_prop "yFix" (VBool false)
                   (set_prop "xDisplacement" (VFloat 0%float)
                      (set_prop "xFree" (VBool true)
                         (set_prop "xFix" (VBool false)
                            (set_prop "References"
                               (VLinkSubList [(face, "Edge2")])
                               (fresh_object ConstraintDisplacement nm)))))))))).

Definition thickness_object (nm : string) : object :=
  set_prop "Thickness" (VInt 10) (fresh_object ElementGeometry2D nm).

Definition mesh_object (face : handle) (nm : string) : object :=
  set_prop "FemMesh" VMeshData
    (set_prop "CharacteristicLengthMax" (VStr "300.0 mm")
       (set_prop "SecondOrderLinear" (VBool true)
          (set_prop "RecombineAll" (VBool true)
             (set_prop "HighOrderOptimize" (VStr "Optimization")
                (set_prop "RecombinationAlgorithm" (VStr "Simple")
                   (set_prop "Algorithm2D" (VStr "Packing Parallelograms")
                      (set_prop "ElementOrder" (VStr "2nd")
                         (set_prop "ElementDimension" (VStr "2D")
                            (set_prop "Part" (VLink face)
                               (fresh_object MeshGmsh nm)))))))))).

(** The analysis container, whose members came in one at a time; [b] is the
    slot of the container. *)
Definition analysis_object (b : nat) (nm : string) : object :=
  set_prop "Group" (VGroup [b + 1; b + 2; b + 3; b + 4; b + 5])
    (set_prop "Group" (VGroup [b + 1; b + 2; b + 3; b + 4])
       (set_prop "Group" (VGroup [b + 1; b + 2; b + 3])
          (set_prop "Group" (VGroup [b + 1; b + 2])
             (set_prop "Group" (VGroup [b + 1])
                (set_prop "Group" (VGroup [])
                   (fresh_object FemAnalysis nm)))))).

(** The names the host gave to the six objects. *)
Record graph_names := {
  nm_analysis : string;
  nm_solver : string;
  nm_material : string;
  nm_constraint : string;
  nm_thickness : string;
  nm_mesh : string
}.

Definition graph (b : nat) (ccxtools : bool) (face face' : handle)
    (nms : graph_names) : list (option object) :=
  [Some (analysis_object b (nm_analysis nms));
   Some (solver_object ccxtools (nm_solver nms));
   Some (material_object (nm_material nms));
   Some (constraint_object face (nm_constraint nms));
   Some (thickness_object (nm_thickness nms));
   Some (mesh_object face' (nm_mesh nms))].

(** The requests of lines 94-167, in order. *)
Definition solver_calls (b : nat) (ccxtools : bool) : list event :=
  AddObject (solver_kind ccxtools) (solver_name ccxtools) (b + 1)
  :: (if ccxtools then [SetAttr (b + 1) "WorkingDir" (VStr "")] else [])
  ++ [SetAttr (b + 1) "SplitInputWriter" (VBool false);
      SetAttr (b + 1) "AnalysisType" (VStr "frequency");
      SetAttr (b + 1) "GeometricalNonlinearity" (VStr "linear");
      SetAttr (b + 1) "ThermoMechSteadyState" (VBool false);
      SetAttr (b + 1) "MatrixSolverType" (VStr "default");
      SetAttr (b + 1) "IterationsControlParameterTimeUse" (VBool false);
      SetAttr (b + 1) "EigenmodesCount" (VInt 10);
      SetAttr (b + 1) "EigenmodeHighLimit" (VFloat 1000000%float);
      SetAttr (b + 1) "EigenmodeLowLimit" (VFloat 0.01%float);
      GroupAdd (b + 0) (b + 1)].

Definition member_calls (b : nat) (face face' : handle) (status : string)
  : list event :=
  [AddObject MaterialSolid "MechanicalMaterial" (b + 2);
   GroupAdd (b + 0) (b + 2);
   SetAttr (b + 2) "Material" (VDict steel);
   GroupAdd (b + 0) (b + 2);
   AddObject ConstraintDisplacement "Fix_Z" (b + 3);
   SetAttr (b + 3) "References" (VLinkSubList [(face, "Edge2")]);
   SetAttr (b + 3) "xFix" (VBool false);
   SetAttr (b + 3) "xFree" (VBool true);
   SetAttr (b + 3) "xDisplacement" (VFloat 0%float);
   SetAttr (b + 3) "yFix" (VBool false);
   SetAttr (b + 3) "yFree" (VBool true);
   SetAttr (b + 3) "yDisplacement" (VFloat 0%float);
   SetAttr (b + 3) "zFix" (VBool true);
   SetAttr (b + 3) "zFree" (VBool false);
   SetAttr (b + 3) "zDisplacement" (VFloat 0%float);
   GroupAdd (b + 0) (b + 3);
   AddObject ElementGeometry2D "ElementGeometry2D" (b + 4);
   SetAttr (b + 4) "Thickness" (VInt 10);
   GroupAdd (b + 0) (b + 4);
   AddObject MeshGmsh "Cylinder_Shell_Mesh" (b + 5);
   SetAttr (b + 5) "Part" (VLink face');
   SetAttr (b + 5) "ElementDimension" (VStr "2D");
   SetAttr (b + 5) "ElementOrder" (VStr "2nd");
   SetAttr (b + 5) "Algorithm2D" (VStr "Packing Parallelograms");
   SetAttr (b + 5) "RecombinationAlgorithm" (VStr "Simple");
   SetAttr (b + 5) "HighOrderOptimize" (VStr "Optimization");
   SetAttr (b + 5) "RecombineAll" (VBool true);
   SetAttr (b + 5) "SecondOrderLinear" (VBool true);
   SetAttr (b + 5) "CharacteristicLengthMax" (VStr "300.0 mm");
   CreateMesh (b + 5);
   PrintMessage status;
   GroupAdd (b + 0) (b + 5);
   Recompute].

Definition analysis_calls (b : nat) (ccxtools : bool) (face face' : handle)
    (status : string) : list event :=
  AddObject FemAnalysis "Analysis" (b + 0)
  :: solver_calls b ccxtools ++ member_calls b face face' status.

(** The requests of lines 72-92, in order; [b] is the number of slots of the
    document that [setup] started from. *)
Definition geometry_calls (env : environment) (b : nat) : list event :=
  [AddObject TextDocument "Explanation_Report" (b + 0);
   SetAttr (b + 0) "Text"
     (VStr (get_explanation (get_header env get_information)));
   AddObject PartCylinder "Cylinder" (b + 1);
   SetAttr (b + 1) "Radius" (VInt 5000);
   SetAttr (b + 1) "Height" (VInt 5000);
   Recompute]
  ++ (if GuiUp env then [ViewAxonometric; FitAll] else [])
  ++ [Downgrade (b + 1);
      RemoveObject "Face001";
      RemoveObject "Face002";
      Recompute].

Definition frame_at (b : nat) : frame :=
  {| analysis := b + 0; material_obj := b + 2; con_disp_xyz := b + 3;
     geo_thickness := b + 4; femmesh_obj := b + 5 |}.

Definition name_at (objs : list (option object)) (h : handle) : option string :=
  Name <$> mjoin (objs !! h).

Definition slot_names (objs : list (option object)) : list (option string) :=
  (fun s : option object => Name <$> s) <$> objs.

(** What lines 94-167 do on a document that holds [d]. *)
Definition analysis_outcome (env : environment) (solvertype : string)
    (n : string) (d : list (option object)) (lg : list event)
    (o : outcome frame) : Prop :=
  match o with
  | Returned fr w =>
      exists ccxtools face face' status nms,
        solvertype = solver_type ccxtools
        /\ gmsh_answer env = inr status
        /\ fr = frame_at (length d)
        /\ name_at (Objects (doc w)) face = Some "Face"
        /\ name_at (Objects (doc w)) face' = Some "Face"
        /\ w = World n d (graph (length d) ccxtools face face' nms)
                 (lg ++ analysis_calls (length d) ccxtools face face' status)
  | Raised e w =>
      exists evs,
        calls w = lg ++ evs
        /\ analysis_raised env solvertype e evs
        /\ (known_solver solvertype = false ->
            exists nm,
              Objects (doc w)
              = d ++ [Some (set_prop "Group" (VGroup [])
                              (fresh_object FemAnalysis nm))])
  end.

(** What lines 72-92 do on a document that holds [d]. *)
Definition geometry_outcome (env : environment) (n : string)
    (d : list (option object)) (o : outcome unit) : Prop :=
  match o with
  | Returned _ w =>
      exists base,
        length base = length d + 5
        /\ w = World n base [] (geometry_calls env (length d))
  | Raised e w => geometry_raised e (calls w)
  end.

(** What a call of [setup] does. *)
Definition setup_outcome (env : environment) (doc0 : option document)
    (solvertype : string) (o : outcome document) : Prop :=
  let n := DocName (doc (start doc0)) in
  let d := Objects (doc (start doc0)) in
  match o with
  | Returned dd w =>
      exists base ccxtools face face' status nms,
        dd = doc w
        /\ solvertype = solver_type ccxtools
        /\ gmsh_answer env = inr status
        /\ setup_body env solvertype (start doc0)
           = Returned (frame_at (length base)) w
        /\ length base = length d + 5
        /\ name_at (Objects (doc w)) face = Some "Face"
        /\ name_at (Objects (doc w)) face' = Some "Face"
        /\ w = World n base (graph (length base) ccxtools face face' nms)
                 (geometry_calls env (length d)
                    ++ analysis_calls (length base) ccxtools face face' status)
  | Raised e w =>
      geometry_raised e (calls w)
      \/ exists evs,
           calls w = geometry_calls env (length d) ++ evs
           /\ analysis_raised env solvertype e evs
           /\ (known_solver solvertype = false ->
               exists base nm,
                 length base = length d + 5
                 /\ Objects (doc w)
                    = base ++ [Some (set_prop "Group" (VGroup [])
                                       (fresh_object FemAnalysis nm))])
  end.

(** ** Calls of [setup] to try the properties on *)

(** No graphical front end, an empty header, and a mesher with a given
    answer. *)
Definition headless (answer : exn + string) : environment :=
  {| GuiUp := false; get_header := fun _ => ""; gmsh_answer := answer |}.

(** [setup(doc, solvertype)] with the keyword defaults of line 66. *)
Definition setup_call (env : environment) (doc0 : option document)
    (solvertype : option string) : outcome document :=
  setup env doc0 (default "ccxtools" solvertype).

(** A document that already holds a face. *)
Definition wall_doc : document :=
  {| DocName := "Walls";
     Objects := [Some {| Name := "Wall"; Kind := PartFace; Props := ∅ |}] |}.

(** Whether a name is the base name Face, with or without a counter. *)
Definition takes_face_name (nm : string) : bool :=
  match strip_prefix "Face" nm with Some _ => true | None => false end.

(** A document with no face-type object and no object named like one. *)
Definition face_free (d : list (option object)) : bool :=
  forallb (fun o => negb (is_face (Kind o)) && negb (takes_face_name (Name o)))
    (omap id d).

(** The flags and the value of a displacement constraint for one axis. *)
Definition fixed (w : world) (c : handle) (axis : string) : option value :=
  prop_of w c (axis +:+ "Fix").

Definition free (w : world) (c : handle) (axis : string) : option value :=
  prop_of w c (axis +:+ "Free").

Definition displacement (w : world) (c : handle) (axis : string)
  : option value :=
  prop_of w c (axis +:+ "Displacement").

(** The document after lines 72-92, when it started as [d] and held nothing
    named like a face: the explanation object, the slot of the deleted
    cylinder, the lateral face, and the slots of the two pruned faces. *)
Definition shell_objects (env : environment) (d : list (option object))
  : list (option object) :=
  [Some (set_prop "Text"
           (VStr (get_explanation (get_header env get_information)))
           (fresh_object TextDocument
              (getUniqueObjectName (names d) "Explanation_Report")));
   None;
   Some (fresh_object PartFace "Face");
   None;
   None].

(** The worlds that two calls on a new document end in. *)
Definition calculix_world : world :=
  Eval vm_compute in
    final_world (setup (headless (inr "")) None "calculix").

Definition ccxtools_world : world :=
  Eval vm_compute in
    final_world (setup (headless (inr "")) None "ccxtools").

Definition elmer_world : world :=
  Eval vm_compute in final_world (setup (headless (inr "")) None "elmer").

(** The world after lines 72-92 on a document that holds a face already. *)
Definition wall_world : world :=
  Eval vm_compute in
    final_world (setup_geometry (headless (inr "")) (start (Some wall_doc))).

(** The world a call of [setup] ends in when the document it is given holds
    nothing named like a face: the objects that were there, the objects of
    the geometry step, then the six objects of the analysis, the constraint
    and the mesh on the lateral face. *)
Definition model_world (env : environment) (doc0 : option document)
    (ccxtools : bool) (status : string) (nms : graph_names) : world :=
  let d := Objects (doc (start doc0)) in
  {| doc := {| DocName := DocName (doc (start doc0));
               Objects := d ++ shell_objects env d
                          ++ graph (length d + 5) ccxtools
                               (length d + 2) (length d + 2) nms |};
     calls := geometry_calls env (length d)
              ++ analysis_calls (length d + 5) ccxtools
                   (length d + 2) (length d + 2) status |}.

(** The objects that lines 72-89 add to a document that holds [d], with the
    names the host gives them: the explanation object, the slot of the
    cylinder, which the downgrade deletes, and the three faces. *)
Definition downgraded (env : environment) (d : list (option object))
  : list (option object) :=
  let nmE := getUniqueObjectName (names d) "Explanation_Report" in
  let nmC := getUniqueObjectName (names d ++ [nmE]) "Cylinder" in
  let used := names d ++ [nmE; nmC] in
  let nm1 := getUniqueObjectName used "Face" in
  let nm2 := getUniqueObjectName (used ++ [nm1]) "Face" in
  let nm3 := getUniqueObjectName (used ++ [nm1; nm2]) "Face" in
  [Some (set_prop "Text"
           (VStr (get_explanation (get_header env get_information)))
           (fresh_object TextDocument nmE));
   None;
   Some (fresh_object PartFace nm1);
   Some (fresh_object PartFace nm2);
   Some (fresh_object PartFace nm3)].

(** The requests of lines 72-89. *)
Definition downgrade_calls (env : environment) (b : nat) : list event :=
  [AddObject TextDocument "Explanation_Report" (b + 0);
   SetAttr (b + 0) "Text"
     (VStr (get_explanation (get_header env get_information)));
   AddObject PartCylinder "Cylinder" (b + 1);
   SetAttr (b + 1) "Radius" (VInt 5000);
   SetAttr (b + 1) "Height" (VInt 5000);
   Recompute]
  ++ (if GuiUp env then [ViewAxonometric; FitAll] else [])
  ++ [Downgrade (b + 1)].

Definition not_found (name : string) : exn :=
  HostError ("No document object found with name " +:+ name).

(** What lines 72-92 do on the document named [n] that holds [d], in closed
    form: the two removals by name decide. *)
Definition geometry_result (env : environment) (n : string)
    (d : list (option object)) : outcome unit :=
  let objs := d ++ downgraded env d in
  let lg := downgrade_calls env (length d) in
  match find_object "Face001" objs with
  | None =>
      Raised (not_found "Face001")
        (World n objs [] (lg ++ [RemoveObject "Face001"]))
  | Some (g1, _) =>
      match find_object "Face002" (<[g1 := None]> objs) with
      | None =>
          Raised (not_found "Face002")
            (World n (<[g1 := None]> objs) []
               (lg ++ [RemoveObject "Face001"; RemoveObject "Face002"]))
      | Some (g2, _) =>
          Returned tt
            (World n (<[g2 := None]> (<[g1 := None]> objs)) []
               (lg ++ [RemoveObject "Face001"; RemoveObject "Face002";
                       Recompute]))
      end
  end.

(** The world a second call ends in, on the document of a first call. *)
Definition second_world : world :=
  Eval vm_compute in
    final_world
      (setup (headless (inr "")) (Some (doc ccxtools_world)) "ccxtools").

(** A document whose names make the host count the new faces from 8. *)
Definition counted_doc : document :=
  {| DocName := "Counted";
     Objects := [Some {| Name := "Face"; Kind := PartFace; Props := ∅ |};
                 Some {| Name := "Face007"; Kind := PartFace; Props := ∅ |}] |}.

(** Two outcomes that agree on everything but the call log: the same value
    or the same exception, and the same document. *)
Definition agree {A} (o1 o2 : outcome A) : Prop :=
  match o1, o2 with
  | Returned a w1, Returned b w2 => a = b /\ doc w1 = doc w2
  | Raised e1 w1, Raised e2 w2 => e1 = e2 /\ doc w1 = doc w2
  | _, _ => False
  end.

(** Two computations that agree whenever they start on the same document. *)
Definition related {A} (m1 m2 : M A) : Prop :=
  forall w1 w2, doc w1 = doc w2 -> agree (m1 w1) (m2 w2).

(** A document that holds an object named Face which is not a face. *)
Definition named_face_doc : document :=
  {| DocName := "Named";
     Objects := [Some {| Name := "Face"; Kind := OtherType "App::FeaturePython";
                         Props := ∅ |}] |}.

(** The world a call ends in on that document. *)
Definition named_face_world : world :=
  Eval vm_compute in
    final_world (setup (headless (inr "")) (Some named_face_doc) "ccxtools").


Lemma world_eta (w : world) :
  w = World (DocName (doc w)) (Objects (doc w)) [] (calls w).
Proof.
  destruct w as [[n d] lg]. unfold World. simpl. by rewrite app_nil_r.
Qed.

Lemma World_rebase n d l lg : World n d l lg = World n (d ++ l) [] lg.
Proof. unfold World. by rewrite app_nil_r. Qed.

Lemma bind_returned {A B} (m : M A) (f : A -> M B) w a w' :
  m w = Returned a w' -> bind m f w = f a w'.
Proof. intros E. unfold bind. by rewrite E. Qed.

Lemma bind_raised {A B} (m : M A) (f : A -> M B) w e w' :
  m w = Raised e w' -> bind m f w = Raised e w'.
Proof. intros E. unfold bind. by rewrite E. Qed.

Lemma lookup_new {A} (d l : list A) (i : nat) :
  (d ++ l) !! (length d + i) = l !! i.
Proof. rewrite lookup_app_r by lia. f_equal. lia. Qed.

Lemma insert_new {A} (d l : list A) (i : nat) (x : A) :
  <[length d + i := x]> (d ++ l) = d ++ <[i := x]> l.
Proof. apply insert_app_r. Qed.

Lemma run_log n d l lg e :
  log e (World n d l lg) = Returned tt (World n d l (lg ++ [e])).
Proof. reflexivity. Qed.

Lemma run_new_object n d l lg k base :
  exists nm,
    new_object k base (World n d l lg)
    = Returned (length d + length l)
        (World n d (l ++ [Some (fresh_object k nm)]) lg).
Proof.
  exists (getUniqueObjectName (names (d ++ l)) base).
  unfold new_object, bind, get_objects, put_objects, ret, World. simpl.
  by rewrite length_app, <- app_assoc.
Qed.

Lemma run_addObject n d l lg k base :
  exists nm,
    addObject k base (World n d l lg)
    = Returned (length d + length l)
        (World n d (l ++ [Some (fresh_object k nm)])
           (lg ++ [AddObject k base (length d + length l)])).
Proof.
  destruct (run_new_object n d l lg k base) as [nm E]. exists nm.
  unfold addObject. by rewrite (bind_returned _ _ _ _ _ E).
Qed.

Lemma run_get_object n d l lg i o :
  l !! i = Some (Some o) ->
  get_object (length d + i) (World n d l lg) = Returned o (World n d l lg).
Proof.
  intros E. unfold get_object, bind, get_objects, World. simpl.
  by rewrite lookup_new, E.
Qed.

Lemma run_set_object n d l lg i o :
  set_object (length d + i) o (World n d l lg)
  = Returned tt (World n d (<[i := Some o]> l) lg).
Proof.
  unfold set_object, bind, get_objects, put_objects, World. simpl.
  by rewrite insert_new.
Qed.

Lemma run_setattr n d l lg i o p v :
  l !! i = Some (Some o) ->
  setattr (length d + i) p v (World n d l lg)
  = Returned tt (World n d (<[i := Some (set_prop p v o)]> l)
                   (lg ++ [SetAttr (length d + i) p v])).
Proof.
  intros E. unfold setattr.
  rewrite (bind_returned _ _ _ _ _ (run_log _ _ _ _ _)).
  rewrite (bind_returned _ _ _ _ _ (run_get_object _ _ _ _ _ _ E)).
  apply run_set_object.
Qed.

Lemma run_getattr n d l lg i o p v :
  l !! i = Some (Some o) -> Props o !! p = Some v ->
  getattr (length d + i) p (World n d l lg) = Returned v (World n d l lg).
Proof.
  intros E Ep. unfold getattr.
  rewrite (bind_returned _ _ _ _ _ (run_get_object _ _ _ _ _ _ E)).
  by rewrite Ep.
Qed.

Lemma run_group_addObject n d l lg a h g o :
  l !! a = Some (Some o) -> Props o !! "Group" = Some (VGroup g) -> h ∉ g ->
  group_addObject (length d + a) h (World n d l lg)
  = Returned [h]
      (World n d (<[a := Some (set_prop "Group" (VGroup (g ++ [h])) o)]> l)
         (lg ++ [GroupAdd (length d + a) h])).
Proof.
  intros E Eg Hh. unfold group_addObject.
  rewrite (bind_returned _ _ _ _ _ (run_log _ _ _ _ _)).
  rewrite (bind_returned _ _ _ _ _ (run_get_object _ _ _ _ _ _ E)).
  rewrite Eg. destruct (decide (h ∈ g)) as [|_]; [done|].
  by rewrite (bind_returned _ _ _ _ _ (run_set_object _ _ _ _ _ _)).
Qed.

Lemma run_group_addObject_again n d l lg a h g o :
  l !! a = Some (Some o) -> Props o !! "Group" = Some (VGroup g) -> h ∈ g ->
  group_addObject (length d + a) h (World n d l lg)
  = Returned [] (World n d l (lg ++ [GroupAdd (length d + a) h])).
Proof.
  intros E Eg Hh. unfold group_addObject.
  rewrite (bind_returned _ _ _ _ _ (run_log _ _ _ _ _)).
  rewrite (bind_returned _ _ _ _ _ (run_get_object _ _ _ _ _ _ E)).
  rewrite Eg. by destruct (decide (h ∈ g)).
Qed.

Lemma bind_assoc {A B C} (m : M A) (f : A -> M B) (g : B -> M C) w :
  bind (bind m f) g w = bind m (fun x => bind (f x) g) w.
Proof. unfold bind. by destruct (m w). Qed.

Lemma bind_ret {A B} (a : A) (f : A -> M B) w : bind (ret a) f w = f a w.
Proof. reflexivity. Qed.

Lemma bind_local {A B} v (a : A) (f : A -> M B) w :
  bind (local v (Some a)) f w = f a w.
Proof. reflexivity. Qed.

Lemma bind_item0 {A B} (a : A) l (f : A -> M B) w :
  bind (item0 (a :: l)) f w = f a w.
Proof. reflexivity. Qed.

Lemma run_doc_attr n d l lg name h s :
  find_object name (d ++ l) = Some (h, s) ->
  doc_attr name (World n d l lg) = Returned h (World n d l lg).
Proof.
  intros E. unfold doc_attr, bind, get_objects. simpl. by rewrite E.
Qed.

Lemma run_doc_attr_none n d l lg name :
  find_object name (d ++ l) = None ->
  doc_attr name (World n d l lg) = Raised (AttributeError name) (World n d l lg).
Proof.
  intros E. unfold doc_attr, bind, get_objects. simpl. by rewrite E.
Qed.

Lemma run_create_mesh env n d l lg i o status :
  gmsh_answer env = inr status -> l !! i = Some (Some o) ->
  create_mesh env (length d + i) (World n d l lg)
  = Returned status
      (World n d (<[i := Some (set_prop "FemMesh" VMeshData o)]> l)
         (lg ++ [CreateMesh (length d + i)])).
Proof.
  intros Eg E. unfold create_mesh.
  rewrite (bind_returned _ _ _ _ _ (run_log _ _ _ _ _)), Eg.
  rewrite (bind_returned _ _ _ _ _ (run_get_object _ _ _ _ _ _ E)).
  by rewrite (bind_returned _ _ _ _ _ (run_set_object _ _ _ _ _ _)).
Qed.

Lemma run_create_mesh_raise env n d l lg h e :
  gmsh_answer env = inl e ->
  create_mesh env h (World n d l lg)
  = Raised e (World n d l (lg ++ [CreateMesh h])).
Proof.
  intros Eg. unfold create_mesh.
  by rewrite (bind_returned _ _ _ _ _ (run_log _ _ _ _ _)), Eg.
Qed.

Lemma run_removeObject n d l lg name h s :
  find_object name (d ++ l) = Some (h, s) ->
  removeObject name (World n d l lg)
  = Returned tt (World n (<[h := None]> (d ++ l)) [] (lg ++ [RemoveObject name])).
Proof.
  intros E. unfold removeObject.
  rewrite (bind_returned _ _ _ _ _ (run_log _ _ _ _ _)).
  unfold bind, get_objects, put_objects, World. simpl. rewrite E.
  by rewrite app_nil_r.
Qed.

Lemma run_removeObject_none n d l lg name :
  find_object name (d ++ l) = None ->
  removeObject name (World n d l lg)
  = Raised (HostError ("No document object found with name " +:+ name))
      (World n d l (lg ++ [RemoveObject name])).
Proof.
  intros E. unfold removeObject.
  rewrite (bind_returned _ _ _ _ _ (run_log _ _ _ _ _)).
  unfold bind, get_objects, World. simpl. by rewrite E.
Qed.

Lemma run_downgrade_cylinder n d l lg i o :
  l !! i = Some (Some o) -> Kind o = PartCylinder ->
  exists nm1 nm2 nm3,
    downgrade (length d + i) true (World n d l lg)
    = Returned tt
        (World n d
           (<[i := None]> (l ++ [Some (fresh_object PartFace nm1);
                                  Some (fresh_object PartFace nm2);
                                  Some (fresh_object PartFace nm3)]))
           (lg ++ [Downgrade (length d + i)])).
Proof.
  intros E Ek. unfold downgrade.
  rewrite (bind_returned _ _ _ _ _ (run_log _ _ _ _ _)).
  rewrite (bind_returned _ _ _ _ _ (run_get_object _ _ _ _ _ _ E)), Ek.
  destruct (run_new_object n d l (lg ++ [Downgrade (length d + i)])
              PartFace "Face") as [nm1 E1].
  rewrite (bind_returned _ _ _ _ _ E1).
  destruct (run_new_object n d (l ++ [Some (fresh_object PartFace nm1)])
              (lg ++ [Downgrade (length d + i)]) PartFace "Face") as [nm2 E2].
  rewrite (bind_returned _ _ _ _ _ E2).
  destruct (run_new_object n d
              ((l ++ [Some (fresh_object PartFace nm1)])
                 ++ [Some (fresh_object PartFace nm2)])
              (lg ++ [Downgrade (length d + i)]) PartFace "Face") as [nm3 E3].
  rewrite (bind_returned _ _ _ _ _ E3).
  exists nm1, nm2, nm3.
  unfold bind, get_objects, put_objects, World. simpl.
  by rewrite insert_new, <- !app_assoc.
Qed.

(** Symbolic execution of a computation, one request at a time. *)

Ltac tidy H :=
  cbv beta iota in H; rewrite ?bind_assoc in H; rewrite <- ?app_assoc in H;
  cbn [length app insert list_insert] in H.

Ltac step_pure H :=
  first [ rewrite bind_ret in H | rewrite bind_local in H
        | rewrite bind_item0 in H ]; tidy H.

Ltac step_add H :=
  match type of H with
  | context [bind (addObject ?k ?b) _ (World ?n ?d ?l ?lg)] =>
      let nm := fresh "nm" in
      let E := fresh "E" in
      destruct (run_addObject n d l lg k b) as [nm E];
      rewrite (bind_returned _ _ _ _ _ E) in H; clear E; tidy H
  end.

Ltac step_set H :=
  match type of H with
  | context [bind (setattr (length ?d + ?i) ?p ?v) _ (World ?n ?d ?l ?lg)] =>
      let E := fresh "E" in
      eassert (E : l !! i = Some (Some _)) by reflexivity;
      rewrite (bind_returned _ _ _ _ _ (run_setattr n d l lg i _ p v E)) in H;
      clear E; tidy H
  end.

Ltac step_get H :=
  match type of H with
  | context [bind (get_object (length ?d + ?i)) _ (World ?n ?d ?l ?lg)] =>
      let E := fresh "E" in
      eassert (E : l !! i = Some (Some _)) by reflexivity;
      rewrite (bind_returned _ _ _ _ _ (run_get_object n d l lg i _ E)) in H;
      clear E; tidy H
  end.

Ltac step_put H :=
  match type of H with
  | context [bind (set_object (length ?d + ?i) ?o) _ (World ?n ?d ?l ?lg)] =>
      rewrite (bind_returned _ _ _ _ _ (run_set_object n d l lg i o)) in H;
      tidy H
  end.

Ltac step_log H :=
  match type of H with
  | context [bind (log ?e) _ (World ?n ?d ?l ?lg)] =>
      rewrite (bind_returned _ _ _ _ _ (run_log n d l lg e)) in H; tidy H
  end.

Ltac not_member :=
  let Hin := fresh in
  intros Hin;
  repeat (apply elem_of_cons in Hin as [Hin|Hin]; [lia|]);
  by apply elem_of_nil in Hin.

Ltac step_group H :=
  match type of H with
  | context [bind (group_addObject (length ?d + ?a) ?h) _ (World ?n ?d ?l ?lg)] =>
      let E := fresh "E" in
      let Eg := fresh "Eg" in
      eassert (E : l !! a = Some (Some _)) by reflexivity;
      match type of E with
      | _ = Some (Some ?o) =>
          eassert (Eg : Props o !! "Group" = Some (VGroup _))
            by exact (lookup_insert_eq _ _ _);
          match type of Eg with
          | _ = Some (VGroup ?g) =>
              first
                [ rewrite (bind_returned _ _ _ _ _
                      (run_group_addObject n d l lg a h g o E Eg
                         ltac:(not_member))) in H
                | rewrite (bind_returned _ _ _ _ _
                      (run_group_addObject_again n d l lg a h g o E Eg
                         ltac:(rewrite !elem_of_cons; auto))) in H ]
          end
      end;
      clear E Eg; tidy H
  end.

Ltac step_getattr H :=
  match type of H with
  | context [bind (getattr (length ?d + ?i) ?p) _ (World ?n ?d ?l ?lg)] =>
      let E := fresh "E" in
      let Ep := fresh "Ep" in
      eassert (E : l !! i = Some (Some _)) by reflexivity;
      match type of E with
      | _ = Some (Some ?o) =>
          eassert (Ep : Props o !! p = Some _) by exact (lookup_insert_eq _ _ _);
          rewrite (bind_returned _ _ _ _ _ (run_getattr n d l lg i o p _ E Ep)) in H
      end;
      clear E Ep; tidy H
  end.

Ltac step_face H :=
  match type of H with
  | context [bind (doc_attr ?name) _ (World ?n ?d ?l ?lg)] =>
      let E := fresh "EF" in
      let f := fresh "face" in
      destruct (find_object name (d ++ l)) as [[f ?]|] eqn:E;
      [ rewrite (bind_returned _ _ _ _ _ (run_doc_attr n d l lg name _ _ E)) in H;
        tidy H
      | rewrite (bind_raised _ _ _ _ _ (run_doc_attr_none n d l lg name E)) in H ]
  end.

Ltac step_mesh H :=
  match type of H with
  | context [bind (create_mesh ?env (length ?d + ?i)) _ (World ?n ?d ?l ?lg)] =>
      let E := fresh "E" in
      let Em := fresh "Em" in
      let status := fresh "status" in
      destruct (gmsh_answer env) as [?|status] eqn:Em;
      [ rewrite (bind_raised _ _ _ _ _
                   (run_create_mesh_raise env n d l lg _ _ Em)) in H
      | eassert (E : l !! i = Some (Some _)) by reflexivity;
        rewrite (bind_returned _ _ _ _ _
                   (run_create_mesh env n d l lg i _ status Em E)) in H;
        clear E; tidy H ]
  end.

Ltac step_remove H :=
  match type of H with
  | context [bind (removeObject ?name) _ (World ?n ?d ?l ?lg)] =>
      let E := fresh "ER" in
      let h := fresh "gone" in
      destruct (find_object name (d ++ l)) as [[h ?]|] eqn:E;
      [ rewrite (bind_returned _ _ _ _ _ (run_removeObject n d l lg name _ _ E)) in H;
        tidy H
      | rewrite (bind_raised _ _ _ _ _
                   (run_removeObject_none n d l lg name E)) in H ]
  end.

Ltac step H :=
  first [ step_pure H | step_add H | step_set H | step_get H | step_put H
        | step_log H | step_group H | step_getattr H | step_face H
        | step_mesh H | step_remove H ].

(** ** What a returning run has done *)

Lemma find_object_name name (objs objs' : list (option object)) h s extra :
  find_object name objs = Some (h, s) ->
  slot_names objs' = slot_names objs ++ extra ->
  name_at objs' h = Some name.
Proof.
  intros E Hn. apply list_find_Some in E as (Hh & Hs & _).
  assert (Hl : slot_names objs' !! h = Some (Some name)).
  { rewrite Hn. apply lookup_app_l_Some. unfold slot_names.
    rewrite list_lookup_fmap, Hh. simpl. by rewrite Hs. }
  unfold slot_names in Hl. rewrite list_lookup_fmap in Hl. unfold name_at.
  destruct (objs' !! h) as [s'|] eqn:X; simpl in *; [|done].
  by injection Hl.
Qed.

Ltac analysis_blocks H :=
  unfold create_material, makeMaterialSolid in H; tidy H; repeat step H;
  unfold create_constraint, makeConstraintDisplacement in H; tidy H;
  repeat step H;
  unfold create_thickness, makeElementGeometry2D in H; tidy H; repeat step H;
  unfold create_femmesh, makeMeshGmsh, recompute in H; tidy H; repeat step H.

Ltac raised_known E :=
  unfold World; cbn [calls doc Objects]; rewrite <- ?app_assoc;
  eexists; split; [reflexivity|];
  split;
    [|let K := fresh in
      intros K; unfold known_solver in K; rewrite E, ?orb_true_r in K;
      discriminate K];
  split; [by eexists|];
  split; [first [discriminate | intros _; eassumption]|];
  left; split; [unfold known_solver; rewrite E; by rewrite ?orb_true_r|];
  split; [reflexivity|]; first [by left | right; eassumption].

Lemma setup_analysis_spec env solvertype n d lg :
  analysis_outcome env solvertype n d lg
    (setup_analysis env solvertype (World n d [] lg)).
Proof.
  remember (setup_analysis env solvertype (World n d [] lg)) as o eqn:H.
  symmetry in H.
  unfold setup_analysis, makeAnalysis in H. tidy H.
  repeat step H.
  unfold create_solver in H. tidy H.
  destruct (String.eqb solvertype "calculix") eqn:E1;
    [|destruct (String.eqb solvertype "ccxtools") eqn:E2].
  - unfold makeSolverCalculix in H. tidy H. repeat step H.
    cbn [orb] in H. tidy H. repeat step H.
    analysis_blocks H; subst o; cbn [analysis_outcome].
    1, 3: raised_known E1.
    2: raised_known E1.
    apply String.eqb_eq in E1.
    exists false, face, face0, status,
      {| nm_analysis := nm; nm_solver := nm0; nm_material := nm1;
         nm_constraint := nm2; nm_thickness := nm3; nm_mesh := nm4 |}.
    repeat split; try done.
    + eapply (find_object_name _ _ _ _ _ [_; _]); [exact EF|].
      unfold World, slot_names; simpl; rewrite !fmap_app, <- app_assoc.
      reflexivity.
    + eapply (find_object_name _ _ _ _ _ []); [exact EF0|].
      unfold World, slot_names; simpl; rewrite !fmap_app, app_nil_r.
      reflexivity.
  - unfold makeSolverCalculixCcxTools in H. tidy H. repeat step H.
    cbn [orb] in H. tidy H. repeat step H.
    analysis_blocks H; subst o; cbn [analysis_outcome].
    1, 3: raised_known E2.
    2: raised_known E2.
    apply String.eqb_eq in E2.
    exists true, face, face0, status,
      {| nm_analysis := nm; nm_solver := nm0; nm_material := nm1;
         nm_constraint := nm2; nm_thickness := nm3; nm_mesh := nm4 |}.
    repeat split; try done.
    + eapply (find_object_name _ _ _ _ _ [_; _]); [exact EF|].
      unfold World, slot_names; simpl; rewrite !fmap_app, <- app_assoc.
      reflexivity.
    + eapply (find_object_name _ _ _ _ _ []); [exact EF0|].
      unfold World, slot_names; simpl; rewrite !fmap_app, app_nil_r.
      reflexivity.
  - repeat step H. cbn [orb] in H. tidy H. repeat step H.
    subst o. cbn [analysis_outcome].
    unfold World; cbn [calls doc Objects]; rewrite <- ?app_assoc.
    eexists; split; [reflexivity|].
    split; [|by eexists].
    split; [by eexists|]. split; [discriminate|].
    right. unfold known_solver. rewrite E1, E2.
    split; [done|]. split; [done|]. by eexists.
Qed.

Ltac step_downgrade H :=
  match type of H with
  | context [bind (downgrade (length ?d + ?i) true) _ (World ?n ?d ?l ?lg)] =>
      let E := fresh "E" in
      let Ed := fresh "Ed" in
      eassert (E : l !! i = Some (Some _)) by reflexivity;
      destruct (run_downgrade_cylinder n d l lg i _ E eq_refl)
        as (? & ? & ? & Ed);
      rewrite (bind_returned _ _ _ _ _ Ed) in H; clear E Ed; tidy H
  end.

Ltac geometry_raised_now :=
  unfold World; cbn [calls app]; rewrite <- ?app_assoc; cbn [app];
  split; [eexists; cbn; reflexivity|];
  split; [reflexivity|];
  split; [reflexivity|]; by eexists.

Ltac geometry_returned_now EG :=
  unfold geometry_calls; rewrite EG, <- ?app_assoc; cbn [app];
  eexists; split; [|reflexivity];
  repeat (rewrite ?length_insert, ?length_app; simpl); lia.

Lemma setup_geometry_spec env n d :
  geometry_outcome env n d (setup_geometry env (World n d [] [])).
Proof.
  remember (setup_geometry env (World n d [] [])) as o eqn:H.
  symmetry in H.
  unfold setup_geometry, add_explanation_obj, create_cylinder, recompute in H.
  tidy H. repeat step H.
  destruct (GuiUp env) eqn:EG; tidy H; repeat step H;
    unfold create_cylindrical_shell, recompute in H; tidy H;
    step_downgrade H; repeat step H; try rewrite run_log in H;
    subst o; cbn [geometry_outcome];
    first [ geometry_raised_now | geometry_returned_now EG ].
Qed.

Lemma start_World doc0 :
  start doc0
  = World (DocName (doc (start doc0))) (Objects (doc (start doc0))) [] [].
Proof. apply world_eta. Qed.

Lemma setup_spec env doc0 solvertype :
  setup_outcome env doc0 solvertype (setup env doc0 solvertype).
Proof.
  unfold setup_outcome, setup.
  set (n := DocName (doc (start doc0))).
  set (d := Objects (doc (start doc0))).
  destruct (setup_body env solvertype (start doc0)) as [fr w|e w] eqn:E;
    pose proof E as E'; unfold setup_body, bind in E;
    rewrite (start_World doc0) in E; fold n d in E;
    pose proof (setup_geometry_spec env n d) as G;
    destruct (setup_geometry env (World n d [] [])) as [[] w0|e0 w0];
    try discriminate; cbn [geometry_outcome] in G.
  - destruct G as (base & Hb & ->).
    pose proof (setup_analysis_spec env solvertype n base
                  (geometry_calls env (length d))) as A.
    rewrite E in A.
    destruct A as (ccxtools & face & face' & status & nms
                   & -> & Hg & -> & Hf & Hf' & ->).
    by exists base, ccxtools, face, face', status, nms.
  - destruct G as (base & Hb & ->).
    pose proof (setup_analysis_spec env solvertype n base
                  (geometry_calls env (length d))) as A.
    rewrite E in A. destruct A as (evs & Ec & Ha & Hk).
    right. exists evs. split; [done|]. split; [done|].
    intros K. destruct (Hk K) as [nm Ho]. by exists base, nm.
  - injection E as <- <-. by left.
Qed.
(** ** The names of the objects of the geometry step *)

Lemma names_app (d l : list (option object)) : names (d ++ l) = names d ++ names l.
Proof. apply omap_app. Qed.

Lemma unique_free used base :
  base ∉ used -> getUniqueObjectName used base = base.
Proof. intros H. unfold getUniqueObjectName. by destruct (decide (base ∈ used)). Qed.

Lemma unique_taken used base :
  base ∈ used ->
  getUniqueObjectName used base = base +:+ pad3 (S (highest_suffix base used)).
Proof. intros H. unfold getUniqueObjectName. by destruct (decide (base ∈ used)). Qed.

Lemma highest_suffix_app base u v :
  highest_suffix base (u ++ v)
  = Nat.max (highest_suffix base u) (highest_suffix base v).
Proof.
  unfold highest_suffix. induction u as [|x u IH]; simpl; [done|].
  rewrite IH. lia.
Qed.

Lemma takes_face_name_suffix nm :
  takes_face_name nm = false -> suffix_of "Face" nm = 0.
Proof.
  unfold takes_face_name, suffix_of.
  by destruct (strip_prefix "Face" nm).
Qed.

Lemma face_free_cons s d :
  face_free (s :: d)
  = match s with
    | Some o => negb (is_face (Kind o)) && negb (takes_face_name (Name o))
    | None => true
    end && face_free d.
Proof. unfold face_free. by destruct s. Qed.

Lemma face_free_names d nm :
  face_free d = true -> nm ∈ names d -> takes_face_name nm = false.
Proof.
  induction d as [|s d IH]; intros F Hin.
  - by apply elem_of_nil in Hin.
  - rewrite face_free_cons in F. apply andb_true_iff in F as [Fs Fd].
    destruct s as [o|]; unfold names in Hin; simpl in Hin.
    + apply elem_of_cons in Hin as [->|Hin]; [|by apply IH].
      apply andb_true_iff in Fs as [_ Fs]. by apply negb_true_iff in Fs.
    + by apply IH.
Qed.

Lemma face_free_Forall d :
  face_free d = true -> Forall (fun nm => takes_face_name nm = false) (names d).
Proof.
  intros F. apply Forall_forall. intros nm Hin. by apply (face_free_names d).
Qed.

Lemma no_face_highest used :
  Forall (fun nm => takes_face_name nm = false) used ->
  highest_suffix "Face" used = 0.
Proof.
  induction 1 as [|nm l Hn _ IH]; [done|].
  unfold highest_suffix. simpl. fold (highest_suffix "Face" l).
  by rewrite IH, takes_face_name_suffix.
Qed.

Lemma no_face_fresh used nm :
  Forall (fun nm => takes_face_name nm = false) used ->
  takes_face_name nm = true -> nm ∉ used.
Proof.
  intros F T Hin. rewrite Forall_forall in F. apply F in Hin. congruence.
Qed.

Lemma face_free_faces n d :
  face_free d = true -> faces {| DocName := n; Objects := d |} = [].
Proof.
  unfold faces. simpl. induction d as [|s d IH]; intros F; [done|].
  rewrite face_free_cons in F. apply andb_true_iff in F as [Fs Fd].
  destruct s as [o|]; simpl; [|by apply IH].
  apply andb_true_iff in Fs as [Fs _]. apply negb_true_iff in Fs.
  rewrite Fs. by apply IH.
Qed.

Lemma face_free_slot d j s nm :
  face_free d = true -> d !! j = Some s -> takes_face_name nm = true ->
  Name <$> s <> Some nm.
Proof.
  intros F Hj T E. destruct s as [o|]; [|done]. simpl in E.
  injection E as E.
  assert (Hin : nm ∈ names d).
  { unfold names. apply list_elem_of_omap. exists (Some o). split; [|by rewrite <- E].
    by eapply list_elem_of_lookup_2. }
  apply (face_free_names d nm F) in Hin. congruence.
Qed.

Lemma faces_app n d l :
  faces {| DocName := n; Objects := d ++ l |}
  = faces {| DocName := n; Objects := d |}
    ++ faces {| DocName := n; Objects := l |}.
Proof. unfold faces. simpl. by rewrite omap_app, List.filter_app. Qed.

Lemma find_object_new name (d l : list (option object)) i o :
  (forall s, s ∈ d -> Name <$> s <> Some name) ->
  find_object name l = Some (i, o) ->
  find_object name (d ++ l) = Some (length d + i, o).
Proof.
  intros Hd Hl. unfold find_object in *.
  rewrite list_find_app_r.
  - rewrite Hl. simpl. do 2 f_equal. lia.
  - apply list_find_None, Forall_forall. intros s Hs. by apply Hd.
Qed.

Lemma face_free_find d l name i o :
  face_free d = true -> takes_face_name name = true ->
  find_object name l = Some (i, o) ->
  find_object name (d ++ l) = Some (length d + i, o).
Proof.
  intros F T. apply find_object_new. intros s Hs.
  apply list_elem_of_lookup_1 in Hs as [j Hj]. by eapply face_free_slot.
Qed.

Lemma run_new_object_named n d l lg k base :
  new_object k base (World n d l lg)
  = Returned (length d + length l)
      (World n d
         (l ++ [Some (fresh_object k
                        (getUniqueObjectName (names (d ++ l)) base))])
         lg).
Proof.
  unfold new_object, bind, get_objects, put_objects, ret, World. simpl.
  by rewrite length_app, <- app_assoc.
Qed.

Lemma run_addObject_named n d l lg k base :
  addObject k base (World n d l lg)
  = Returned (length d + length l)
      (World n d
         (l ++ [Some (fresh_object k
                        (getUniqueObjectName (names (d ++ l)) base))])
         (lg ++ [AddObject k base (length d + length l)])).
Proof.
  unfold addObject. by rewrite (bind_returned _ _ _ _ _ (run_new_object_named _ _ _ _ _ _)).
Qed.

Lemma run_removeObject_new n d l lg name i s :
  find_object name (d ++ l) = Some (length d + i, s) ->
  removeObject name (World n d l lg)
  = Returned tt (World n d (<[i := None]> l) (lg ++ [RemoveObject name])).
Proof.
  intros E. rewrite (run_removeObject _ _ _ _ _ _ _ E).
  unfold World. by rewrite insert_new, app_nil_r.
Qed.

Lemma explanation_name_no_face used :
  takes_face_name (getUniqueObjectName used "Explanation_Report") = false.
Proof. unfold getUniqueObjectName. by destruct (decide _). Qed.

Lemma cylinder_name_no_face used :
  takes_face_name (getUniqueObjectName used "Cylinder") = false.
Proof. unfold getUniqueObjectName. by destruct (decide _). Qed.

(** The names the host gives to the three faces of the downgrade, on a
    document that holds nothing named like a face. *)
Lemma face_names used :
  Forall (fun nm => takes_face_name nm = false) used ->
  getUniqueObjectName used "Face" = "Face"
  /\ getUniqueObjectName (used ++ ["Face"]) "Face" = "Face001"
  /\ getUniqueObjectName (used ++ ["Face"; "Face001"]) "Face" = "Face002".
Proof.
  intros F. pose proof (no_face_highest used F) as Hh. repeat split.
  - apply unique_free. by apply no_face_fresh.
  - rewrite unique_taken by (apply elem_of_app; right; by left).
    rewrite highest_suffix_app, Hh. reflexivity.
  - rewrite unique_taken by (apply elem_of_app; right; by left).
    rewrite highest_suffix_app, Hh. reflexivity.
Qed.

Lemma run_downgrade_named n d l lg i o :
  l !! i = Some (Some o) -> Kind o = PartCylinder ->
  downgrade (length d + i) true (World n d l lg)
  = Returned tt
      (World n d
         (<[i := None]>
            (l ++ [Some (fresh_object PartFace
                           (getUniqueObjectName (names (d ++ l)) "Face"));
                   Some (fresh_object PartFace
                           (getUniqueObjectName
                              (names (d ++ l) ++ [getUniqueObjectName (names (d ++ l)) "Face"])
                              "Face"));
                   Some (fresh_object PartFace
                           (getUniqueObjectName
                              (names (d ++ l)
                               ++ [getUniqueObjectName (names (d ++ l)) "Face";
                                   getUniqueObjectName
                                     (names (d ++ l) ++ [getUniqueObjectName (names (d ++ l)) "Face"])
                                     "Face"])
                              "Face"))]))
         (lg ++ [Downgrade (length d + i)])).
Proof.
  intros E Ek. unfold downgrade.
  rewrite (bind_returned _ _ _ _ _ (run_log _ _ _ _ _)).
  rewrite (bind_returned _ _ _ _ _ (run_get_object _ _ _ _ _ _ E)), Ek.
  rewrite (bind_returned _ _ _ _ _ (run_new_object_named _ _ _ _ _ _)).
  rewrite (bind_returned _ _ _ _ _ (run_new_object_named _ _ _ _ _ _)).
  rewrite (bind_returned _ _ _ _ _ (run_new_object_named _ _ _ _ _ _)).
  unfold bind, get_objects, put_objects, World. simpl.
  rewrite insert_new, <- !app_assoc. simpl.
  rewrite !app_assoc, !names_app. simpl. rewrite <- !app_assoc. reflexivity.
Qed.

Lemma find_object_at name (l : list (option object)) i o :
  l !! i = Some (Some o) -> Name o = name ->
  (forall j s, l !! j = Some s -> j < i -> Name <$> s <> Some name) ->
  find_object name l = Some (i, Some o).
Proof.
  intros Hi Hn Hj. apply list_find_Some. repeat split; [done| |done].
  simpl. by rewrite Hn.
Qed.

Ltac step_quiet H :=
  first [ step_pure H | step_set H | step_get H | step_put H | step_log H ].

Ltac step_add_named H :=
  match type of H with
  | context [bind (addObject ?k ?b) _ (World ?n ?d ?l ?lg)] =>
      rewrite (bind_returned _ _ _ _ _ (run_addObject_named n d l lg k b)) in H;
      tidy H
  end.

Ltac step_downgrade_named H :=
  match type of H with
  | context [bind (downgrade (length ?d + ?i) true) _ (World ?n ?d ?l ?lg)] =>
      let E := fresh "E" in
      eassert (E : l !! i = Some (Some _)) by reflexivity;
      rewrite (bind_returned _ _ _ _ _
                 (run_downgrade_named n d l lg i _ E eq_refl)) in H;
      clear E
  end.

Ltac find_face F TE :=
  let j := fresh "j" in
  let E := fresh "E" in
  let E' := fresh "E" in
  apply face_free_find; [exact F | reflexivity |];
  apply find_object_at; [reflexivity | reflexivity |];
  intros j ? E ?;
  repeat (destruct j as [|j];
          [injection E as <-; simpl;
           first [ done | by (intros [= E']; rewrite E' in TE) ]|]);
  lia.

Ltac step_remove_face H F TE i :=
  match type of H with
  | context [bind (removeObject ?name) _ (World ?n ?d ?l ?lg)] =>
      let R := fresh "R" in
      assert (R : find_object name (d ++ l)
                  = Some (length d + i, Some (fresh_object PartFace name)))
        by (find_face F TE);
      rewrite (bind_returned _ _ _ _ _
                 (run_removeObject_new n d l lg name i _ R)) in H;
      clear R; cbn [insert list_insert] in H
  end.

Lemma setup_geometry_clean env n d :
  face_free d = true ->
  setup_geometry env (World n d [] [])
  = Returned tt (World n d (shell_objects env d) (geometry_calls env (length d))).
Proof.
  intros F.
  remember (setup_geometry env (World n d [] [])) as o eqn:H. symmetry in H.
  unfold setup_geometry, add_explanation_obj, create_cylinder,
    create_cylindrical_shell, recompute in H.
  tidy H. step_add_named H. rewrite app_nil_r in H.
  remember (getUniqueObjectName (names d) "Explanation_Report") as nmE eqn:HE.
  repeat step_quiet H. step_add_named H.
  rewrite names_app in H. cbn [names omap list_omap fmap option_fmap option_map set_prop fresh_object Name] in H.
  remember (getUniqueObjectName (names d ++ [nmE]) "Cylinder") as nmC eqn:HC.
  assert (TE : takes_face_name nmE = false)
    by (rewrite HE; apply explanation_name_no_face).
  assert (TC : takes_face_name nmC = false)
    by (rewrite HC; apply cylinder_name_no_face).
  assert (U : Forall (fun nm => takes_face_name nm = false)
                (names d ++ [nmE; nmC])).
  { apply Forall_app. split; [by apply face_free_Forall|].
    by repeat constructor. }
  destruct (face_names _ U) as (N1 & N2 & N3).
  repeat step_quiet H.
  unfold geometry_calls.
  destruct (GuiUp env); tidy H; repeat step_quiet H.
  all: step_downgrade_named H.
  all: rewrite names_app in H;
    cbn [names omap list_omap fmap option_fmap option_map set_prop fresh_object
         Name app] in H.
  all: rewrite N1 in H; rewrite <- !app_assoc in H; cbn [app] in H.
  all: rewrite <- app_assoc in N2, N3; cbn [app] in N2, N3;
    rewrite N2, N3 in H; cbn [insert list_insert] in H.
  all: step_remove_face H F TE 3.
  all: step_remove_face H F TE 4.
  all: cbn [insert list_insert] in H; rewrite run_log in H; subst o nmE.
  all: reflexivity.
Qed.

(** ** Reading the objects that [setup] has built *)

Lemma object_at_new n d l lg i :
  object_at (World n d l lg) (length d + i) = mjoin (l !! i).
Proof. unfold object_at, World. simpl. by rewrite lookup_new. Qed.

Lemma prop_of_new n d l lg i o p :
  l !! i = Some (Some o) ->
  prop_of (World n d l lg) (length d + i) p = Props o !! p.
Proof. intros E. unfold prop_of. by rewrite object_at_new, E. Qed.

Lemma kind_of_new n d l lg i o :
  l !! i = Some (Some o) ->
  kind_of (World n d l lg) (length d + i) = Some (Kind o).
Proof. intros E. unfold kind_of. by rewrite object_at_new, E. Qed.

Lemma has_kind_new n d l lg i o p :
  l !! i = Some (Some o) ->
  has_kind (World n d l lg) p (length d + i) = p (Kind o).
Proof. intros E. unfold has_kind. by rewrite (kind_of_new _ _ _ _ _ _ E). Qed.

Lemma analysis_object_group b nm :
  Props (analysis_object b nm) !! "Group"
  = Some (VGroup [b + 1; b + 2; b + 3; b + 4; b + 5]).
Proof. exact (lookup_insert_eq _ _ _). Qed.

Lemma members_graph n base ccxtools face face' nms lg :
  members (World n base (graph (length base) ccxtools face face' nms) lg)
    (length base + 0)
  = [length base + 1; length base + 2; length base + 3; length base + 4;
     length base + 5].
Proof.
  unfold members.
  rewrite (prop_of_new _ _ _ _ 0
             (analysis_object (length base) (nm_analysis nms)))
    by reflexivity.
  by rewrite analysis_object_group.
Qed.

Lemma solvers_of_graph n base ccxtools face face' nms lg :
  solvers_of (World n base (graph (length base) ccxtools face face' nms) lg)
    (length base + 0)
  = [length base + 1].
Proof.
  unfold solvers_of. rewrite members_graph. cbn [List.filter].
  repeat (erewrite has_kind_new by reflexivity).
  by destruct ccxtools.
Qed.

(** What a returning call of [setup] has built. *)
Ltac returned_run H :=
  match type of H with
  | setup ?env ?doc0 ?st = Returned _ _ =>
      let S := fresh "S" in
      pose proof (setup_spec env doc0 st) as S; rewrite H in S;
      destruct S as (base & ccxtools & face & face' & status & nms
                     & -> & Est & Hg & Hbody & Hlen & Hf & Hf' & ->)
  end.

(** C2. Every call of [setup] with solvertype "calculix" that returns leaves
    an analysis container with exactly one solver object among its members,
    and the AnalysisType of that solver is "frequency". *)
Theorem calculix_analysis_has_one_frequency_solver env doc0 dd w :
  setup env doc0 "calculix" = Returned dd w ->
  exists fr s,
    setup_body env "calculix" (start doc0) = Returned fr w
    /\ solvers_of w (analysis fr) = [s]
    /\ kind_of w s = Some SolverCalculix
    /\ prop_of w s "AnalysisType" = Some (VStr "frequency").
Proof.
  intros H. returned_run H. destruct ccxtools; [discriminate Est|].
  exists (frame_at (length base)), (length base + 1).
  split; [exact Hbody|]. split; [apply solvers_of_graph|].
  split; [by erewrite kind_of_new by reflexivity|].
  by erewrite prop_of_new by reflexivity.
Qed.

Lemma calculix_analysis_has_one_frequency_solver_witness :
  exists fr s,
    setup_body (headless (inr "")) "calculix" (start None)
    = Returned fr calculix_world
    /\ solvers_of calculix_world (analysis fr) = [s]
    /\ kind_of calculix_world s = Some SolverCalculix
    /\ prop_of calculix_world s "AnalysisType" = Some (VStr "frequency").
Proof.
  apply (calculix_analysis_has_one_frequency_solver (headless (inr "")) None
           (doc calculix_world)).
  reflexivity.
Defined.

(** C3. Every call of [setup] with solvertype "ccxtools", given or left to
    its default, that returns has created one solver object, of the
    ccxtools kind, whose WorkingDir is the empty string and whose
    EigenmodesCount is 10. *)
Theorem ccxtools_solver_workingdir_and_eigenmodes env doc0 st dd w :
  st = None \/ st = Some "ccxtools" ->
  setup_call env doc0 st = Returned dd w ->
  exists fr s,
    setup_body env "ccxtools" (start doc0) = Returned fr w
    /\ AddObject SolverCcxTools "CalculiXccxTools" s ∈ calls w
    /\ solvers_of w (analysis fr) = [s]
    /\ kind_of w s = Some SolverCcxTools
    /\ prop_of w s "WorkingDir" = Some (VStr "")
    /\ prop_of w s "EigenmodesCount" = Some (VInt 10).
Proof.
  intros Hst H.
  assert (H' : setup env doc0 "ccxtools" = Returned dd w)
    by (by destruct Hst as [-> | ->]).
  clear H Hst. returned_run H'. destruct ccxtools; [|discriminate Est].
  exists (frame_at (length base)), (length base + 1).
  split; [exact Hbody|].
  split.
  { unfold World. cbn [calls]. apply elem_of_app. right.
    unfold analysis_calls, solver_calls. cbn [solver_kind solver_name].
    right. by left. }
  split; [apply solvers_of_graph|].
  split; [by erewrite kind_of_new by reflexivity|].
  split; by erewrite prop_of_new by reflexivity.
Qed.

Lemma ccxtools_solver_workingdir_and_eigenmodes_witness :
  exists fr s,
    setup_body (headless (inr "")) "ccxtools" (start None)
    = Returned fr ccxtools_world
    /\ AddObject SolverCcxTools "CalculiXccxTools" s ∈ calls ccxtools_world
    /\ solvers_of ccxtools_world (analysis fr) = [s]
    /\ kind_of ccxtools_world s = Some SolverCcxTools
    /\ prop_of ccxtools_world s "WorkingDir" = Some (VStr "")
    /\ prop_of ccxtools_world s "EigenmodesCount" = Some (VInt 10).
Proof.
  apply (ccxtools_solver_workingdir_and_eigenmodes (headless (inr "")) None
           None (doc ccxtools_world)).
  - by left.
  - reflexivity.
Defined.

Ltac member_of_graph :=
  rewrite members_graph; rewrite !elem_of_cons; auto 10.

Ltac read_graph :=
  first [ by erewrite kind_of_new by reflexivity
        | by (unfold fixed, free, displacement;
              erewrite prop_of_new by reflexivity)
        | by erewrite prop_of_new by reflexivity ].

(** C6. Every call of [setup] that returns has attached to the analysis a
    material object whose property mapping holds the strings "210 GPa" for
    YoungsModulus, "0.30" for PoissonRatio and "7900 kg/m^3" for Density. *)
Theorem material_carries_steel_values env doc0 solvertype dd w :
  setup env doc0 solvertype = Returned dd w ->
  exists fr (mat : gmap string string),
    setup_body env solvertype (start doc0) = Returned fr w
    /\ material_obj fr ∈ members w (analysis fr)
    /\ kind_of w (material_obj fr) = Some MaterialSolid
    /\ prop_of w (material_obj fr) "Material" = Some (VDict mat)
    /\ mat !! "YoungsModulus" = Some "210 GPa"
    /\ mat !! "PoissonRatio" = Some "0.30"
    /\ mat !! "Density" = Some "7900 kg/m^3".
Proof.
  intros H. returned_run H.
  exists (frame_at (length base)), steel. cbn [frame_at material_obj analysis].
  split; [exact Hbody|]. split; [member_of_graph|].
  split; [read_graph|]. split; [read_graph|]. done.
Qed.

Lemma material_carries_steel_values_witness :
  exists fr (mat : gmap string string),
    setup_body (headless (inr "")) "ccxtools" (start None)
    = Returned fr ccxtools_world
    /\ material_obj fr ∈ members ccxtools_world (analysis fr)
    /\ kind_of ccxtools_world (material_obj fr) = Some MaterialSolid
    /\ prop_of ccxtools_world (material_obj fr) "Material" = Some (VDict mat)
    /\ mat !! "YoungsModulus" = Some "210 GPa"
    /\ mat !! "PoissonRatio" = Some "0.30"
    /\ mat !! "Density" = Some "7900 kg/m^3".
Proof.
  apply (material_carries_steel_values (headless (inr "")) None "ccxtools"
           (doc ccxtools_world)).
  reflexivity.
Defined.

(** C9. Every call of [setup] that returns has attached to the analysis a
    shell-thickness object whose thickness is 10. *)
Theorem thickness_is_ten env doc0 solvertype dd w :
  setup env doc0 solvertype = Returned dd w ->
  exists fr,
    setup_body env solvertype (start doc0) = Returned fr w
    /\ geo_thickness fr ∈ members w (analysis fr)
    /\ kind_of w (geo_thickness fr) = Some ElementGeometry2D
    /\ prop_of w (geo_thickness fr) "Thickness" = Some (VInt 10).
Proof.
  intros H. returned_run H.
  exists (frame_at (length base)). cbn [frame_at geo_thickness analysis].
  split; [exact Hbody|]. split; [member_of_graph|].
  split; read_graph.
Qed.

Lemma thickness_is_ten_witness :
  exists fr,
    setup_body (headless (inr "")) "ccxtools" (start None)
    = Returned fr ccxtools_world
    /\ geo_thickness fr ∈ members ccxtools_world (analysis fr)
    /\ kind_of ccxtools_world (geo_thickness fr) = Some ElementGeometry2D
    /\ prop_of ccxtools_world (geo_thickness fr) "Thickness" = Some (VInt 10).
Proof.
  apply (thickness_is_ten (headless (inr "")) None "ccxtools"
           (doc ccxtools_world)).
  reflexivity.
Defined.

Lemma eqb_new b i j : Nat.eqb (b + i) (b + j) = Nat.eqb i j.
Proof.
  destruct (Nat.eqb_spec i j), (Nat.eqb_spec (b + i) (b + j)); (done || lia).
Qed.

Lemma geometry_calls_no_attach env b a h :
  List.filter (is_attach a h) (geometry_calls env b) = [].
Proof. unfold geometry_calls. by destruct (GuiUp env). Qed.

Lemma analysis_calls_material_attach b ccxtools face face' status :
  List.filter (is_attach (b + 0) (b + 2))
    (analysis_calls b ccxtools face face' status)
  = [GroupAdd (b + 0) (b + 2); GroupAdd (b + 0) (b + 2)].
Proof.
  unfold analysis_calls, solver_calls, member_calls.
  destruct ccxtools; cbn [List.filter is_attach app];
    rewrite !eqb_new; reflexivity.
Qed.

(** C10. In every call of [setup] that returns, the analysis has received
    two attach requests for the one material object: one right after the
    material was created, one after its property mapping was assigned. *)
Theorem material_is_attached_twice env doc0 solvertype dd w :
  setup env doc0 solvertype = Returned dd w ->
  exists fr pre post,
    setup_body env solvertype (start doc0) = Returned fr w
    /\ attach_requests w (analysis fr) (material_obj fr) = 2
    /\ calls w
       = pre
         ++ [AddObject MaterialSolid "MechanicalMaterial" (material_obj fr);
             GroupAdd (analysis fr) (material_obj fr);
             SetAttr (material_obj fr) "Material" (VDict steel);
             GroupAdd (analysis fr) (material_obj fr)]
         ++ post
    /\ material_obj fr ∈ members w (analysis fr).
Proof.
  intros H. returned_run H.
  exists (frame_at (length base)),
    (geometry_calls env (length (Objects (doc (start doc0))))
     ++ AddObject FemAnalysis "Analysis" (length base + 0)
        :: solver_calls (length base) ccxtools).
  eexists. cbn [frame_at material_obj analysis].
  split; [exact Hbody|]. split; [|split; [|member_of_graph]].
  - unfold attach_requests, World. cbn [calls].
    by rewrite List.filter_app, geometry_calls_no_attach,
      analysis_calls_material_attach.
  - unfold World. cbn [calls]. unfold analysis_calls, member_calls.
    rewrite <- !app_assoc. cbn [app]. reflexivity.
Qed.

Lemma material_is_attached_twice_witness :
  exists fr pre post,
    setup_body (headless (inr "")) "ccxtools" (start None)
    = Returned fr ccxtools_world
    /\ attach_requests ccxtools_world (analysis fr) (material_obj fr) = 2
    /\ calls ccxtools_world
       = pre
         ++ [AddObject MaterialSolid "MechanicalMaterial" (material_obj fr);
             GroupAdd (analysis fr) (material_obj fr);
             SetAttr (material_obj fr) "Material" (VDict steel);
             GroupAdd (analysis fr) (material_obj fr)]
         ++ post
    /\ material_obj fr ∈ members ccxtools_world (analysis fr).
Proof.
  apply (material_is_attached_twice (headless (inr "")) None "ccxtools"
           (doc ccxtools_world)).
  reflexivity.
Defined.

(** ** The requests of a run, read as steps and as console lines *)

Lemma geometry_steps_of env b :
  omap step_of (geometry_calls env b) = geometry_steps.
Proof. unfold geometry_calls. by destruct (GuiUp env). Qed.


Lemma geometry_console env b : omap console_of (geometry_calls env b) = [].
Proof. unfold geometry_calls. by destruct (GuiUp env). Qed.

Lemma geometry_no_meshing env b :
  meshing_requested (geometry_calls env b) = false.
Proof. unfold geometry_calls. by destruct (GuiUp env). Qed.


Lemma analysis_calls_mesh b ccxtools face face' status :
  exists pre post,
    analysis_calls b ccxtools face face' status
    = pre ++ [CreateMesh (b + 5); PrintMessage status] ++ post.
Proof.
  destruct ccxtools.
  - by exists (take 42 (analysis_calls b true face face' status)),
      (drop 44 (analysis_calls b true face face' status)).
  - by exists (take 41 (analysis_calls b false face face' status)),
      (drop 43 (analysis_calls b false face face' status)).
Qed.

(** C8. In every call of [setup] that has sent the meshing request and whose
    mesher has answered with a status text, whatever the text, the request
    that follows the meshing request prints that text on the console. *)
Theorem mesher_status_is_printed env doc0 solvertype status :
  gmsh_answer env = inr status ->
  meshing_requested (calls (final_world (setup env doc0 solvertype))) = true ->
  exists pre post mesh,
    calls (final_world (setup env doc0 solvertype))
    = pre ++ [CreateMesh mesh; PrintMessage status] ++ post
    /\ Message status ∈ console (final_world (setup env doc0 solvertype)).
Proof.
  intros Hs Hm.
  pose proof (setup_spec env doc0 solvertype) as S.
  destruct (setup env doc0 solvertype) as [dd w|e w]; cbn [final_world] in *.
  - destruct S as (base & ccxtools & face & face' & status' & nms
                   & -> & Est & Hg & Hbody & Hlen & Hf & Hf' & ->).
    rewrite Hs in Hg. injection Hg as <-.
    unfold console, World. cbn [calls].
    destruct (analysis_calls_mesh (length base) ccxtools face face' status)
      as (pre & post & ->).
    exists (geometry_calls env (length (Objects (doc (start doc0)))) ++ pre),
      post, (length base + 5).
    split; [by rewrite <- app_assoc|].
    apply list_elem_of_omap. exists (PrintMessage status). split; [|done].
    apply elem_of_app. right. apply elem_of_app. right.
    apply elem_of_app. left. right. by left.
  - destruct S as [(_ & Hn & _)|(evs & E & (_ & Hi & _) & _)]; [congruence|].
    rewrite E in Hm. unfold meshing_requested in Hm.
    rewrite existsb_app in Hm. fold (meshing_requested evs) in Hm.
    fold (meshing_requested (geometry_calls env
            (length (Objects (doc (start doc0)))))) in Hm.
    rewrite geometry_no_meshing in Hm. apply Hi in Hm. congruence.
Qed.

Lemma mesher_status_is_printed_witness :
  exists pre post mesh,
    calls (final_world (setup (headless (inr "Gmsh done")) None "calculix"))
    = pre ++ [CreateMesh mesh; PrintMessage "Gmsh done"] ++ post
    /\ Message "Gmsh done"
       ∈ console (final_world
                    (setup (headless (inr "Gmsh done")) None "calculix")).
Proof.
  apply (mesher_status_is_printed (headless (inr "Gmsh done")) None "calculix"
           "Gmsh done").
  - reflexivity.
  - vm_compute. reflexivity.
Defined.

Lemma solver_type_known ccxtools : known_solver (solver_type ccxtools) = true.
Proof. by destruct ccxtools. Qed.

(** C1. A call of [setup] with a solver type that is neither "calculix" nor
    "ccxtools" never returns: it raises.  When the geometry steps went
    through, the warning is the only line on the console, no solver object
    has been created, the analysis container is in the document with no
    member, and the error is the UnboundLocalError of line 118, where
    [solver_obj] is read though no branch has assigned it. *)
Theorem unknown_solvertype_raises env doc0 solvertype :
  known_solver solvertype = false ->
  exists e w,
    setup env doc0 solvertype = Raised e w
    /\ (geometry_raised e (calls w)
        \/ e = UnboundLocalError "solver_obj"
           /\ console w = [Warning (unknown_solver_warning solvertype)]
           /\ (SolverCreation ∉ steps w)
           /\ last (calls w)
              = Some (PrintWarning (unknown_solver_warning solvertype))
           /\ (exists a,
                 kind_of w a = Some FemAnalysis /\ members w a = [])).
Proof.
  intros K.
  pose proof (setup_spec env doc0 solvertype) as S.
  destruct (setup env doc0 solvertype) as [dd w|e w].
  - destruct S as (base & ccxtools & face & face' & status & nms
                   & _ & -> & _).
    by rewrite solver_type_known in K.
  - exists e, w. split; [done|].
    destruct S as [G|(evs & E & (P & _ & [(K' & _)|(_ & -> & a & ->)]) & Ho)];
      [by left|congruence|].
    right. split; [done|]. unfold console, steps. rewrite E, !omap_app.
    rewrite geometry_console, geometry_steps_of.
    split; [done|]. split; [|split].
    + intros Hin.
      by repeat (apply elem_of_cons in Hin as [Hin|Hin]; [done|]);
        apply elem_of_nil in Hin.
    + by rewrite last_app.
    + destruct (Ho K) as (base & nm & Hb & Hobjs).
      exists (length base). unfold members, prop_of, kind_of, object_at.
      rewrite Hobjs, (lookup_app_r base) by lia.
      by rewrite Nat.sub_diag.
Qed.

Lemma unknown_solvertype_raises_witness :
  exists e w,
    setup (headless (inr "")) None "elmer" = Raised e w
    /\ (geometry_raised e (calls w)
        \/ e = UnboundLocalError "solver_obj"
           /\ console w = [Warning (unknown_solver_warning "elmer")]
           /\ (SolverCreation ∉ steps w)
           /\ last (calls w)
              = Some (PrintWarning (unknown_solver_warning "elmer"))
           /\ (exists a,
                 kind_of w a = Some FemAnalysis /\ members w a = [])).
Proof.
  apply (unknown_solvertype_raises (headless (inr "")) None "elmer").
  reflexivity.
Defined.

(** What the script does with solver type "elmer" on a new document. *)
Lemma elmer_run :
  setup (headless (inr "")) None "elmer"
  = Raised (UnboundLocalError "solver_obj") elmer_world.
Proof. reflexivity. Qed.

(** C4, the statement as the specification has it, on a document that holds
    a face already: after lines 72-92 the document holds two face-type
    objects. *)
Lemma wall_doc_keeps_two_faces :
  setup_geometry (headless (inr "")) (start (Some wall_doc))
  = Returned tt wall_world
  /\ length (faces (doc wall_world)) = 2
  /\ length (faces (doc wall_world)) <> 1.
Proof. split; [reflexivity|]. by vm_compute. Qed.

(** C4, amended.  On a new document, and on every document that holds no
    face-type object and no object with a name that starts with Face, the
    steps of lines 72-92 go through and leave exactly one face-type object,
    named Face: the cylinder that was created is deleted, and no object
    named Face001 or Face002 is left. *)
Theorem shell_keeps_exactly_one_face env doc0 :
  face_free (Objects (doc (start doc0))) = true ->
  exists w cyl_obj,
    setup_geometry env (start doc0) = Returned tt w
    /\ faces (doc w) = [fresh_object PartFace "Face"]
    /\ (AddObject PartCylinder "Cylinder" cyl_obj ∈ calls w)
    /\ object_at w cyl_obj = None
    /\ ("Face001" ∉ names (Objects (doc w)))
    /\ ("Face002" ∉ names (Objects (doc w))).
Proof.
  intros F. rewrite start_World.
  set (n := DocName (doc (start doc0))) in *.
  set (d := Objects (doc (start doc0))) in *.
  rewrite (setup_geometry_clean env n d F).
  eexists _, (length d + 1). split; [reflexivity|].
  assert (N : forall nm, takes_face_name nm = true -> nm <> "Face" ->
                nm ∉ names (d ++ shell_objects env d)).
  { intros nm T Hne Hin. rewrite names_app in Hin.
    apply elem_of_app in Hin as [Hin|Hin].
    - apply (face_free_names d nm F) in Hin. congruence.
    - unfold names in Hin. simpl in Hin.
      apply elem_of_cons in Hin as [->|Hin];
        [by rewrite explanation_name_no_face in T|].
      apply elem_of_cons in Hin as [->|Hin]; [done|].
      by apply elem_of_nil in Hin. }
  split; [|split; [|split; [|split]]].
  - unfold World. cbn [doc]. by rewrite faces_app, face_free_faces.
  - unfold World, geometry_calls. cbn [calls]. apply elem_of_app. left.
    rewrite !elem_of_cons. auto.
  - by rewrite object_at_new.
  - by apply N.
  - by apply N.
Qed.

Lemma shell_keeps_exactly_one_face_witness :
  exists w cyl_obj,
    setup_geometry (headless (inr "")) (start None) = Returned tt w
    /\ faces (doc w) = [fresh_object PartFace "Face"]
    /\ (AddObject PartCylinder "Cylinder" cyl_obj ∈ calls w)
    /\ object_at w cyl_obj = None
    /\ ("Face001" ∉ names (Objects (doc w)))
    /\ ("Face002" ∉ names (Objects (doc w))).
Proof.
  apply (shell_keeps_exactly_one_face (headless (inr "")) None).
  reflexivity.
Defined.

(** ** Calls that return *)

Lemma find_object_app_l name (d l : list (option object)) h s :
  find_object name d = Some (h, s) ->
  find_object name (d ++ l) = Some (h, s).
Proof. intros E. unfold find_object in *. by apply list_find_app_l. Qed.

Lemma setup_analysis_returns env ccxtools n d lg f s status :
  find_object "Face" d = Some (f, s) ->
  gmsh_answer env = inr status ->
  exists nms,
    setup_analysis env (solver_type ccxtools) (World n d [] lg)
    = Returned (frame_at (length d))
        (World n d (graph (length d) ccxtools f f nms)
           (lg ++ analysis_calls (length d) ccxtools f f status)).
Proof.
  intros Hf Hs.
  remember (setup_analysis env (solver_type ccxtools) (World n d [] lg))
    as o eqn:H.
  symmetry in H.
  unfold setup_analysis, makeAnalysis in H. tidy H.
  repeat step H.
  unfold create_solver in H. tidy H.
  destruct ccxtools; cbn [solver_type String.eqb Ascii.eqb Bool.eqb] in H;
    [unfold makeSolverCalculixCcxTools in H|unfold makeSolverCalculix in H];
    tidy H; repeat step H; cbn [orb] in H; tidy H; repeat step H;
    analysis_blocks H;
    repeat match goal with
      | EF : find_object "Face" (_ ++ _) = _ |- _ =>
          rewrite (find_object_app_l _ _ _ _ _ Hf) in EF;
          first [discriminate EF | injection EF as <- <-]
      end;
    try congruence;
    injection Hs as ->; subst o;
    by exists {| nm_analysis := nm; nm_solver := nm0; nm_material := nm1;
                 nm_constraint := nm2; nm_thickness := nm3; nm_mesh := nm4 |}.
Qed.

Lemma shell_face_found env d :
  face_free d = true ->
  find_object "Face" (d ++ shell_objects env d)
  = Some (length d + 2, Some (fresh_object PartFace "Face")).
Proof.
  intros F. apply face_free_find; [done|done|].
  apply find_object_at; [done|done|].
  intros j s E Hj. destruct j as [|[|j]]; simpl in E; [| |lia].
  - injection E as <-. simpl. intros [= E].
    pose proof (explanation_name_no_face (names d)) as T.
    by rewrite E in T.
  - by injection E as <-.
Qed.

(** On a document with nothing named like a face, with a known solver type
    and a mesher that answers, [setup] returns, and the document is the one
    it was given followed by the objects of the geometry step and the six
    objects of the analysis, the constraint and the mesh on the lateral
    face. *)
Lemma setup_on_face_free env doc0 ccxtools status :
  face_free (Objects (doc (start doc0))) = true ->
  gmsh_answer env = inr status ->
  exists nms, 
    setup env doc0 (solver_type ccxtools)
    = Returned (doc (model_world env doc0 ccxtools status nms))
        (model_world env doc0 ccxtools status nms).
Proof.
  intros F Hs. unfold setup, setup_body, bind. rewrite start_World.
  set (n := DocName (doc (start doc0))).
  set (d := Objects (doc (start doc0))) in *.
  rewrite (setup_geometry_clean env n d F), World_rebase.
  destruct (setup_analysis_returns env ccxtools n (d ++ shell_objects env d)
              (geometry_calls env (length d)) _ _ status
              (shell_face_found env d F) Hs) as [nms ->].
  exists nms. unfold model_world, World. fold n d.
  rewrite length_app. cbn [length shell_objects]. by rewrite <- app_assoc.
Qed.

(** ** Lines 72-92 on any document *)

Lemma run_removeObject_flat n objs lg name h s :
  find_object name objs = Some (h, s) ->
  removeObject name (World n objs [] lg)
  = Returned tt (World n (<[h := None]> objs) [] (lg ++ [RemoveObject name])).
Proof.
  intros E. rewrite <- (app_nil_r objs) in E.
  rewrite (run_removeObject _ _ _ _ _ _ _ E). by rewrite app_nil_r.
Qed.

Lemma run_removeObject_flat_none n objs lg name :
  find_object name objs = None ->
  removeObject name (World n objs [] lg)
  = Raised (not_found name) (World n objs [] (lg ++ [RemoveObject name])).
Proof.
  intros E. rewrite <- (app_nil_r objs) in E.
  by rewrite (run_removeObject_none _ _ _ _ _ E).
Qed.

Lemma setup_geometry_runs env n d :
  setup_geometry env (World n d [] []) = geometry_result env n d.
Proof.
  remember (setup_geometry env (World n d [] [])) as o eqn:H. symmetry in H.
  unfold setup_geometry, add_explanation_obj, create_cylinder,
    create_cylindrical_shell, recompute in H.
  tidy H. step_add_named H. rewrite app_nil_r in H.
  repeat step_quiet H. step_add_named H.
  rewrite names_app in H.
  cbn [names omap list_omap fmap option_fmap option_map set_prop fresh_object
       Name] in H.
  repeat step_quiet H.
  unfold geometry_result, downgrade_calls, downgraded.
  destruct (GuiUp env); tidy H; repeat step_quiet H;
    step_downgrade_named H;
    rewrite names_app in H;
    cbn [names omap list_omap fmap option_fmap option_map set_prop
         fresh_object Name app insert list_insert] in H;
    rewrite <- !app_assoc in H; cbn [app] in H;
    rewrite <- !app_assoc; cbn [app];
    rewrite World_rebase in H;
    (destruct (find_object "Face001" _) as [[g1 s1]|] eqn:ER;
     [rewrite (bind_returned _ _ _ _ _
                 (run_removeObject_flat _ _ _ _ _ _ ER)) in H
     |by rewrite (bind_raised _ _ _ _ _
                    (run_removeObject_flat_none _ _ _ _ ER)) in H]);
    (destruct (find_object "Face002" _) as [[g2 s2]|] eqn:ER';
     [rewrite (bind_returned _ _ _ _ _
                 (run_removeObject_flat _ _ _ _ _ _ ER')) in H
     |rewrite (bind_raised _ _ _ _ _
                 (run_removeObject_flat_none _ _ _ _ ER')) in H]);
    rewrite <- ?app_assoc in H; cbn [app] in H; by rewrite ?run_log in H.
Qed.

(** ** Further properties of a returning call *)

(** X1. Every call of [setup] that returns has given the one solver of the
    analysis, of either kind, the frequency parameters of lines 109-117;
    only a ccxtools solver has been given a WorkingDir. *)
Theorem solver_has_the_frequency_parameters env doc0 solvertype dd w :
  setup env doc0 solvertype = Returned dd w ->
  exists fr s,
    setup_body env solvertype (start doc0) = Returned fr w
    /\ solvers_of w (analysis fr) = [s]
    /\ prop_of w s "SplitInputWriter" = Some (VBool false)
    /\ prop_of w s "AnalysisType" = Some (VStr "frequency")
    /\ prop_of w s "GeometricalNonlinearity" = Some (VStr "linear")
    /\ prop_of w s "ThermoMechSteadyState" = Some (VBool false)
    /\ prop_of w s "MatrixSolverType" = Some (VStr "default")
    /\ prop_of w s "IterationsControlParameterTimeUse" = Some (VBool false)
    /\ prop_of w s "EigenmodesCount" = Some (VInt 10)
    /\ prop_of w s "EigenmodeHighLimit" = Some (VFloat 1000000%float)
    /\ prop_of w s "EigenmodeLowLimit" = Some (VFloat 0.01%float)
    /\ (solvertype = "calculix" -> prop_of w s "WorkingDir" = None)
    /\ (solvertype = "ccxtools" ->
        prop_of w s "WorkingDir" = Some (VStr "")).
Proof.
  intros H. returned_run H.
  exists (frame_at (length base)), (length base + 1).
  split; [exact Hbody|]. split; [apply solvers_of_graph|].
  subst solvertype.
  destruct ccxtools; cbn [solver_type];
    do 9 (split; [read_graph|]);
    split; intros E; first [discriminate E | read_graph].
Qed.

Lemma solver_has_the_frequency_parameters_witness :
  exists fr s,
    setup_body (headless (inr "")) "calculix" (start None)
    = Returned fr calculix_world
    /\ solvers_of calculix_world (analysis fr) = [s]
    /\ prop_of calculix_world s "SplitInputWriter" = Some (VBool false)
    /\ prop_of calculix_world s "AnalysisType" = Some (VStr "frequency")
    /\ prop_of calculix_world s "GeometricalNonlinearity"
       = Some (VStr "linear")
    /\ prop_of calculix_world s "ThermoMechSteadyState" = Some (VBool false)
    /\ prop_of calculix_world s "MatrixSolverType" = Some (VStr "default")
    /\ prop_of calculix_world s "IterationsControlParameterTimeUse"
       = Some (VBool false)
    /\ prop_of calculix_world s "EigenmodesCount" = Some (VInt 10)
    /\ prop_of calculix_world s "EigenmodeHighLimit"
       = Some (VFloat 1000000%float)
    /\ prop_of calculix_world s "EigenmodeLowLimit" = Some (VFloat 0.01%float)
    /\ ("calculix" = "calculix" ->
        prop_of calculix_world s "WorkingDir" = None)
    /\ ("calculix" = "ccxtools" ->
        prop_of calculix_world s "WorkingDir" = Some (VStr "")).
Proof.
  apply (solver_has_the_frequency_parameters (headless (inr "")) None
           "calculix" (doc calculix_world)).
  reflexivity.
Defined.

(** X2. Every call of [setup] that returns has attached to the analysis a
    mesh object with the settings of lines 152-160, on the object the
    document knows as Face, and the mesher has left its mesh data in it. *)
Theorem mesh_object_is_configured env doc0 solvertype dd w :
  setup env doc0 solvertype = Returned dd w ->
  exists fr face,
    setup_body env solvertype (start doc0) = Returned fr w
    /\ femmesh_obj fr ∈ members w (analysis fr)
    /\ kind_of w (femmesh_obj fr) = Some MeshGmsh
    /\ prop_of w (femmesh_obj fr) "Part" = Some (VLink face)
    /\ name_at (Objects (doc w)) face = Some "Face"
    /\ prop_of w (femmesh_obj fr) "ElementDimension" = Some (VStr "2D")
    /\ prop_of w (femmesh_obj fr) "ElementOrder" = Some (VStr "2nd")
    /\ prop_of w (femmesh_obj fr) "Algorithm2D"
       = Some (VStr "Packing Parallelograms")
    /\ prop_of w (femmesh_obj fr) "RecombinationAlgorithm"
       = Some (VStr "Simple")
    /\ prop_of w (femmesh_obj fr) "HighOrderOptimize"
       = Some (VStr "Optimization")
    /\ prop_of w (femmesh_obj fr) "RecombineAll" = Some (VBool true)
    /\ prop_of w (femmesh_obj fr) "SecondOrderLinear" = Some (VBool true)
    /\ prop_of w (femmesh_obj fr) "CharacteristicLengthMax"
       = Some (VStr "300.0 mm")
    /\ prop_of w (femmesh_obj fr) "FemMesh" = Some VMeshData.
Proof.
  intros H. returned_run H.
  exists (frame_at (length base)), face'. cbn [frame_at femmesh_obj analysis].
  split; [exact Hbody|]. split; [member_of_graph|].
  split; [read_graph|]. split; [read_graph|]. split; [exact Hf'|].
  repeat (split; [read_graph|]). read_graph.
Qed.

Lemma mesh_object_is_configured_witness :
  exists fr face,
    setup_body (headless (inr "")) "ccxtools" (start None)
    = Returned fr ccxtools_world
    /\ femmesh_obj fr ∈ members ccxtools_world (analysis fr)
    /\ kind_of ccxtools_world (femmesh_obj fr) = Some MeshGmsh
    /\ prop_of ccxtools_world (femmesh_obj fr) "Part" = Some (VLink face)
    /\ name_at (Objects (doc ccxtools_world)) face = Some "Face"
    /\ prop_of ccxtools_world (femmesh_obj fr) "ElementDimension"
       = Some (VStr "2D")
    /\ prop_of ccxtools_world (femmesh_obj fr) "ElementOrder"
       = Some (VStr "2nd")
    /\ prop_of ccxtools_world (femmesh_obj fr) "Algorithm2D"
       = Some (VStr "Packing Parallelograms")
    /\ prop_of ccxtools_world (femmesh_obj fr) "RecombinationAlgorithm"
       = Some (VStr "Simple")
    /\ prop_of ccxtools_world (femmesh_obj fr) "HighOrderOptimize"
       = Some (VStr "Optimization")
    /\ prop_of ccxtools_world (femmesh_obj fr) "RecombineAll"
       = Some (VBool true)
    /\ prop_of ccxtools_world (femmesh_obj fr) "SecondOrderLinear"
       = Some (VBool true)
    /\ prop_of ccxtools_world (femmesh_obj fr) "CharacteristicLengthMax"
       = Some (VStr "300.0 mm")
    /\ prop_of ccxtools_world (femmesh_obj fr) "FemMesh" = Some VMeshData.
Proof.
  apply (mesh_object_is_configured (headless (inr "")) None "ccxtools"
           (doc ccxtools_world)).
  reflexivity.
Defined.

(** X3. After every call of [setup] that returns, the members of the
    analysis are five different objects, in the order they were attached:
    the solver, the material, the constraint, the thickness and the mesh;
    the second attach request for the material has added nothing. *)
Theorem analysis_has_five_members env doc0 solvertype dd w :
  setup env doc0 solvertype = Returned dd w ->
  exists fr s,
    setup_body env solvertype (start doc0) = Returned fr w
    /\ kind_of w (analysis fr) = Some FemAnalysis
    /\ members w (analysis fr)
       = [s; material_obj fr; con_disp_xyz fr; geo_thickness fr;
          femmesh_obj fr]
    /\ NoDup (members w (analysis fr))
    /\ has_kind w is_solver s = true
    /\ kind_of w (material_obj fr) = Some MaterialSolid
    /\ kind_of w (con_disp_xyz fr) = Some ConstraintDisplacement
    /\ kind_of w (geo_thickness fr) = Some ElementGeometry2D
    /\ kind_of w (femmesh_obj fr) = Some MeshGmsh.
Proof.
  intros H. returned_run H.
  exists (frame_at (length base)), (length base + 1).
  cbn [frame_at analysis material_obj con_disp_xyz geo_thickness femmesh_obj].
  split; [exact Hbody|]. split; [read_graph|].
  split; [apply members_graph|]. split.
  { rewrite members_graph.
    repeat (apply NoDup_cons; split; [not_member|]). apply NoDup_nil_2. }
  split; [erewrite has_kind_new by reflexivity; by destruct ccxtools|].
  repeat (split; [read_graph|]). read_graph.
Qed.

Lemma analysis_has_five_members_witness :
  exists fr s,
    setup_body (headless (inr "")) "ccxtools" (start None)
    = Returned fr ccxtools_world
    /\ kind_of ccxtools_world (analysis fr) = Some FemAnalysis
    /\ members ccxtools_world (analysis fr)
       = [s; material_obj fr; con_disp_xyz fr; geo_thickness fr;
          femmesh_obj fr]
    /\ NoDup (members ccxtools_world (analysis fr))
    /\ has_kind ccxtools_world is_solver s = true
    /\ kind_of ccxtools_world (material_obj fr) = Some MaterialSolid
    /\ kind_of ccxtools_world (con_disp_xyz fr) = Some ConstraintDisplacement
    /\ kind_of ccxtools_world (geo_thickness fr) = Some ElementGeometry2D
    /\ kind_of ccxtools_world (femmesh_obj fr) = Some MeshGmsh.
Proof.
  apply (analysis_has_five_members (headless (inr "")) None "ccxtools"
           (doc ccxtools_world)).
  reflexivity.
Defined.




(** X5. When the mesher fails, [setup] does not return.  If the call has
    got as far as the meshing request, the error it raises is the mesher's
    own, and on every path no status text has been printed. *)
Theorem mesher_failure_is_not_caught env doc0 solvertype e :
  gmsh_answer env = inl e ->
  exists e' w,
    setup env doc0 solvertype = Raised e' w
    /\ (meshing_requested (calls w) = true -> e' = e)
    /\ (forall s, Message s ∉ console w).
Proof.
  intros Hm.
  pose proof (setup_spec env doc0 solvertype) as S.
  destruct (setup env doc0 solvertype) as [dd w|e' w].
  - destruct S as (base & ccxtools & face & face' & status & nms
                   & _ & _ & Hg & _). congruence.
  - exists e', w. split; [done|].
    destruct S as [(_ & Hn & Hc & _)|(evs & E & (_ & Hi & Hk) & _)].
    + split; [congruence|]. intros s. unfold console. rewrite Hc.
      apply not_elem_of_nil.
    + split.
      * rewrite E. unfold meshing_requested. rewrite existsb_app.
        fold (meshing_requested evs).
        fold (meshing_requested
                (geometry_calls env (length (Objects (doc (start doc0)))))).
        rewrite geometry_no_meshing. intros Hr. apply Hi in Hr. congruence.
      * intros s. unfold console. rewrite E, omap_app, geometry_console.
        destruct Hk as [(_ & -> & _)|(_ & _ & a & ->)].
        -- apply not_elem_of_nil.
        -- cbn. intros Hin. apply elem_of_cons in Hin as [Hin|Hin]; [done|].
           by apply elem_of_nil in Hin.
Qed.

Lemma mesher_failure_is_not_caught_witness :
  exists e' w,
    setup (headless (inl (HostError "gmsh"))) None "ccxtools" = Raised e' w
    /\ (meshing_requested (calls w) = true -> e' = HostError "gmsh")
    /\ (forall s, Message s ∉ console w).
Proof.
  apply (mesher_failure_is_not_caught (headless (inl (HostError "gmsh")))
           None "ccxtools" (HostError "gmsh")).
  reflexivity.
Defined.






(** ** A returning call on any document, slot by slot *)

Lemma find_object_slot name (objs : list (option object)) h s :
  find_object name objs = Some (h, s) ->
  objs !! h = Some s /\ Name <$> s = Some name.
Proof. intros E. by apply list_find_Some in E as (? & ? & _). Qed.

(** A removal by name leaves every slot with another name as it is. *)
Lemma removed_other_slot name (objs : list (option object)) h s j o :
  find_object name objs = Some (h, s) ->
  objs !! j = Some (Some o) -> Name o <> name ->
  <[h := None]> objs !! j = Some (Some o).
Proof.
  intros E Hj Hn. apply find_object_slot in E as [Hh Hs].
  rewrite list_lookup_insert_ne; [done|].
  intros ->. rewrite Hh in Hj. injection Hj as ->. simpl in Hs. congruence.
Qed.

Lemma removed_other_find name other (objs : list (option object)) h s f t :
  find_object other objs = Some (h, s) -> other <> name ->
  find_object name objs = Some (f, t) ->
  find_object name (<[h := None]> objs) = Some (f, t).
Proof.
  intros E Hne Ef. apply find_object_slot in E as [Hh Hs].
  apply list_find_Some in Ef as (Hf & Ht & Hmin).
  assert (Hhf : h <> f).
  { intros ->. rewrite Hh in Hf. injection Hf as ->. congruence. }
  apply list_find_Some. repeat split.
  - by rewrite list_lookup_insert_ne.
  - done.
  - intros j y Hj Hlt. destruct (decide (j = h)) as [->|Hjh].
    + rewrite list_lookup_insert_eq in Hj by (by eapply lookup_lt_Some).
      by injection Hj as <-.
    + rewrite list_lookup_insert_ne in Hj by done. by eapply Hmin.
Qed.

(** What a returning call of [setup] has done to the document: two removals
    by name among the objects that were there and the objects of lines
    72-89, then the six objects of the analysis. *)
Lemma setup_returned_closed env doc0 solvertype dd w :
  setup env doc0 solvertype = Returned dd w ->
  let n := DocName (doc (start doc0)) in
  let d := Objects (doc (start doc0)) in
  exists g1 s1 g2 s2 ccxtools face face' status nms,
    find_object "Face001" (d ++ downgraded env d) = Some (g1, s1)
    /\ find_object "Face002" (<[g1 := None]> (d ++ downgraded env d))
       = Some (g2, s2)
    /\ solvertype = solver_type ccxtools
    /\ gmsh_answer env = inr status
    /\ dd = doc w
    /\ w = World n
             (<[g2 := None]> (<[g1 := None]> (d ++ downgraded env d)))
             (graph (length d + 5) ccxtools face face' nms)
             (geometry_calls env (length d)
              ++ analysis_calls (length d + 5) ccxtools face face' status).
Proof.
  intros H n d. unfold setup, setup_body, bind in H.
  rewrite start_World, setup_geometry_runs in H. fold n d in H.
  unfold geometry_result in H.
  destruct (find_object "Face001" _) as [[g1 s1]|] eqn:E1; [|done].
  destruct (find_object "Face002" _) as [[g2 s2]|] eqn:E2; [|done].
  set (base := <[g2 := None]> (<[g1 := None]> (d ++ downgraded env d))) in *.
  assert (Hb : length base = length d + 5).
  { unfold base. by rewrite !length_insert, length_app. }
  match type of H with
  | context [setup_analysis env solvertype (World n base [] ?lg)] =>
      pose proof (setup_analysis_spec env solvertype n base lg) as A;
      destruct (setup_analysis env solvertype (World n base [] lg))
        as [fr w'|e w']; [|done]
  end.
  injection H as <- <-.
  destruct A as (ccxtools & face & face' & status & nms
                 & -> & Hg & -> & Hf & Hf' & ->).
  exists g1, s1, g2, s2, ccxtools, face, face', status, nms.
  rewrite Hb. repeat split; try done.
  unfold geometry_calls, downgrade_calls. by rewrite <- !app_assoc.
Qed.


(** X8. A call of [setup] that returns has kept the name of the document
    and every object that was in it under its reference, unless the object
    was named Face001 or Face002; it has added eleven slots to the
    document. *)
Theorem objects_of_the_document_are_kept env doc0 solvertype dd w :
  setup env doc0 solvertype = Returned dd w ->
  DocName dd = DocName (doc (start doc0))
  /\ length (Objects dd) = length (Objects (doc (start doc0))) + 11
  /\ (forall j o,
        Objects (doc (start doc0)) !! j = Some (Some o) ->
        Name o <> "Face001" -> Name o <> "Face002" ->
        Objects dd !! j = Some (Some o)).
Proof.
  intros H. destruct (setup_returned_closed _ _ _ _ _ H)
    as (g1 & s1 & g2 & s2 & ccxtools & face & face' & status & nms
        & E1 & E2 & _ & _ & -> & ->).
  unfold World. cbn [doc DocName Objects]. split; [done|]. split.
  { rewrite length_app, !length_insert, length_app. simpl. lia. }
  intros j o Hj N1 N2. apply lookup_app_l_Some.
  eapply removed_other_slot; [exact E2| |done].
  eapply removed_other_slot; [exact E1| |done].
  by apply lookup_app_l_Some.
Qed.

Lemma objects_of_the_document_are_kept_witness :
  DocName (doc second_world)
  = DocName (doc (start (Some (doc ccxtools_world))))
  /\ length (Objects (doc second_world))
     = length (Objects (doc (start (Some (doc ccxtools_world))))) + 11
  /\ (forall j o,
        Objects (doc (start (Some (doc ccxtools_world)))) !! j
        = Some (Some o) ->
        Name o <> "Face001" -> Name o <> "Face002" ->
        Objects (doc second_world) !! j = Some (Some o)).
Proof.
  apply (objects_of_the_document_are_kept (headless (inr ""))
           (Some (doc ccxtools_world)) "ccxtools" (doc second_world)
           second_world).
  reflexivity.
Defined.



(** X10. When the document given to [setup] already holds an object named
    Face, a call that returns has put the constraint and the mesh on that
    object, which was there before, and not on a face of the new
    cylinder. *)
Theorem face_already_there_is_the_one_used env doc0 solvertype dd w f s :
  find_object "Face" (Objects (doc (start doc0))) = Some (f, s) ->
  setup env doc0 solvertype = Returned dd w ->
  exists fr,
    setup_body env solvertype (start doc0) = Returned fr w
    /\ f < length (Objects (doc (start doc0)))
    /\ object_at w f = mjoin (Objects (doc (start doc0)) !! f)
    /\ prop_of w (con_disp_xyz fr) "References"
       = Some (VLinkSubList [(f, "Edge2")])
    /\ prop_of w (femmesh_obj fr) "Part" = Some (VLink f).
Proof.
  intros Hf H.
  destruct (setup_returned_closed _ _ _ _ _ H)
    as (g1 & s1 & g2 & s2 & ccxtools & face & face' & status & nms
        & E1 & E2 & -> & Hg & _ & _).
  set (n := DocName (doc (start doc0))) in *.
  set (d := Objects (doc (start doc0))) in *.
  set (base := <[g2 := None]> (<[g1 := None]> (d ++ downgraded env d))).
  assert (Hb : find_object "Face" base = Some (f, s)).
  { eapply removed_other_find; [exact E2|done|].
    eapply removed_other_find; [exact E1|done|].
    by apply find_object_app_l. }
  assert (Hl : length base = length d + 5).
  { unfold base. by rewrite !length_insert, length_app. }
  destruct (setup_analysis_returns env ccxtools n base
              (geometry_calls env (length d)) f s status Hb Hg) as [nms' A].
  pose proof H as H'. unfold setup in H'.
  destruct (setup_body env (solver_type ccxtools) (start doc0))
    as [fr w'|e w'] eqn:B; [|done].
  injection H' as _ ->. exists fr. split; [done|].
  unfold setup_body, bind in B.
  rewrite start_World, setup_geometry_runs in B. fold n d in B.
  unfold geometry_result in B. rewrite E1, E2 in B. fold base in B.
  replace (downgrade_calls env (length d)
           ++ [RemoveObject "Face001"; RemoveObject "Face002"; Recompute])
    with (geometry_calls env (length d)) in B
    by (unfold geometry_calls, downgrade_calls; by rewrite <- !app_assoc).
  rewrite A in B. injection B as <- <-.
  apply find_object_slot in Hf as [Hfd _].
  split; [by eapply lookup_lt_Some|].
  split.
  { apply find_object_slot in Hb as [Hfb _].
    unfold object_at, World. cbn [doc Objects].
    by rewrite (lookup_app_l_Some _ _ _ _ Hfb), Hfd. }
  cbn [frame_at con_disp_xyz femmesh_obj]. split; read_graph.
Qed.

Lemma face_already_there_is_the_one_used_witness :
  exists fr,
    setup_body (headless (inr "")) "ccxtools"
      (start (Some (doc ccxtools_world)))
    = Returned fr second_world
    /\ 2 < length (Objects (doc (start (Some (doc ccxtools_world)))))
    /\ object_at second_world 2
       = mjoin (Objects (doc (start (Some (doc ccxtools_world)))) !! 2)
    /\ prop_of second_world (con_disp_xyz fr) "References"
       = Some (VLinkSubList [(2, "Edge2")])
    /\ prop_of second_world (femmesh_obj fr) "Part" = Some (VLink 2).
Proof.
  apply (face_already_there_is_the_one_used (headless (inr ""))
           (Some (doc ccxtools_world)) "ccxtools" (doc second_world)
           second_world 2 (Some (fresh_object PartFace "Face"))).
  - reflexivity.
  - reflexivity.
Defined.

(** X11. When the host has named none of the objects Face001 once the
    cylinder is downgraded, [setup] raises the lookup failure of the
    document for that name, whatever the solver type; the document keeps
    the three faces of the downgrade, and nothing of the analysis has been
    created. *)
Theorem pruning_fails_without_face001 env doc0 solvertype :
  find_object "Face001"
    (Objects (doc (start doc0)) ++ downgraded env (Objects (doc (start doc0))))
  = None ->
  exists w,
    setup env doc0 solvertype = Raised (not_found "Face001") w
    /\ last (calls w) = Some (RemoveObject "Face001")
    /\ length (faces (doc w)) = length (faces (doc (start doc0))) + 3
    /\ (AnalysisCreation ∉ steps w)
    /\ console w = [].
Proof.
  intros E. unfold setup, setup_body, bind.
  rewrite start_World, setup_geometry_runs. unfold geometry_result.
  rewrite E. eexists. split; [reflexivity|].
  unfold World, console, steps. cbn [calls doc].
  split; [by rewrite last_snoc|]. split; [|split].
  - rewrite !app_nil_r.
    rewrite (faces_app _ (Objects (doc (start doc0)))), length_app.
    reflexivity.
  - unfold downgrade_calls. destruct (GuiUp env); cbn; intros Hin;
      repeat (apply elem_of_cons in Hin as [Hin|Hin]; [done|]);
      by apply elem_of_nil in Hin.
  - unfold downgrade_calls. by destruct (GuiUp env).
Qed.

Lemma pruning_fails_without_face001_witness :
  exists w,
    setup (headless (inr "")) (Some counted_doc) "ccxtools"
    = Raised (not_found "Face001") w
    /\ last (calls w) = Some (RemoveObject "Face001")
    /\ length (faces (doc w))
       = length (faces (doc (start (Some counted_doc)))) + 3
    /\ (AnalysisCreation ∉ steps w)
    /\ console w = [].
Proof.
  apply (pruning_fails_without_face001 (headless (inr ""))
           (Some counted_doc) "ccxtools").
  vm_compute. reflexivity.
Defined.


Lemma graph_no_face n b ccxtools face face' nms :
  faces {| DocName := n; Objects := graph b ccxtools face face' nms |} = [].
Proof. by destruct ccxtools. Qed.





(** ** The call log and the 3D view do not act on the document *)

Section Related.

Context {A B : Type}.

Lemma related_ret (a : A) : related (ret a) (ret a).
Proof. by intros w1 w2 E. Qed.

Lemma related_raise (e : exn) : related (@raise A e) (raise e).
Proof. by intros w1 w2 E. Qed.

Lemma related_bind (m1 m2 : M A) (f1 f2 : A -> M B) :
  related m1 m2 -> (forall a, related (f1 a) (f2 a)) ->
  related (bind m1 f1) (bind m2 f2).
Proof.
  intros Hm Hf w1 w2 E. unfold bind. specialize (Hm w1 w2 E).
  destruct (m1 w1) as [a w1'|e w1'], (m2 w2) as [b w2'|e' w2']; try done.
  destruct Hm as [<- E']. by apply Hf.
Qed.

End Related.

Lemma related_log e : related (log e) (log e).
Proof. by intros w1 w2 E. Qed.

Lemma related_get_objects : related get_objects get_objects.
Proof. intros w1 w2 E. unfold get_objects. simpl. by rewrite E. Qed.

Lemma related_put_objects objs : related (put_objects objs) (put_objects objs).
Proof. intros w1 w2 E. unfold put_objects. simpl. by rewrite E. Qed.

Lemma related_view_l :
  related (bind (log ViewAxonometric) (fun _ => log FitAll)) (ret tt).
Proof. by intros w1 w2 E. Qed.

Lemma related_view_r :
  related (ret tt) (bind (log ViewAxonometric) (fun _ => log FitAll)).
Proof. by intros w1 w2 E. Qed.

Ltac related_step :=
  match goal with
  | |- related (bind _ _) (bind _ _) => apply related_bind; [|intros ?]
  | |- related (ret _) (ret _) => apply related_ret
  | |- related (raise _) (raise _) => apply related_raise
  | |- related (log _) (log _) => apply related_log
  | |- related get_objects get_objects => apply related_get_objects
  | |- related (put_objects _) (put_objects _) => apply related_put_objects
  | |- related (bind (log ViewAxonometric) _) (ret tt) => apply related_view_l
  | |- related (ret tt) (bind (log ViewAxonometric) _) => apply related_view_r
  | |- related (match ?x with _ => _ end) (match ?x with _ => _ end) =>
      destruct x
  end.

Lemma setup_body_related g1 g2 header answer solvertype :
  related
    (setup_body {| GuiUp := g1; get_header := header; gmsh_answer := answer |}
       solvertype)
    (setup_body {| GuiUp := g2; get_header := header; gmsh_answer := answer |}
       solvertype).
Proof.
  unfold setup_body, setup_geometry, setup_analysis, add_explanation_obj,
    create_cylinder, create_cylindrical_shell, create_solver, create_material,
    create_constraint, create_thickness, create_femmesh, makeAnalysis,
    makeSolverCalculix, makeSolverCalculixCcxTools, makeMaterialSolid,
    makeConstraintDisplacement, makeElementGeometry2D, makeMeshGmsh,
    create_mesh, downgrade, removeObject, doc_attr, group_addObject,
    recompute, getattr, setattr, addObject, new_object, get_object,
    set_object, local, item0.
  cbn [GuiUp get_header gmsh_answer].
  destruct g1, g2; repeat related_step.
Qed.

(** X14. Whether a graphical front end is up does not change what [setup]
    does to the document: with the same header and the same mesher, the two
    calls return the same document, or raise the same error and leave the
    same document. *)
Theorem front_end_does_not_change_the_document env1 env2 doc0 solvertype :
  get_header env1 = get_header env2 ->
  gmsh_answer env1 = gmsh_answer env2 ->
  agree (setup env1 doc0 solvertype) (setup env2 doc0 solvertype).
Proof.
  destruct env1 as [g1 header answer], env2 as [g2 header' answer'].
  cbn [get_header gmsh_answer]. intros <- <-. unfold setup.
  pose proof (setup_body_related g1 g2 header answer solvertype
                (start doc0) (start doc0) eq_refl) as R.
  destruct (setup_body _ _ _) as [fr1 w1|e1 w1],
           (setup_body _ _ _) as [fr2 w2|e2 w2]; try done.
  by destruct R as [_ R].
Qed.

Lemma front_end_does_not_change_the_document_witness :
  agree (setup (headless (inr "")) None "ccxtools")
    (setup {| GuiUp := true; get_header := fun _ => "";
              gmsh_answer := inr "" |} None "ccxtools").
Proof.
  apply (front_end_does_not_change_the_document (headless (inr ""))
           {| GuiUp := true; get_header := fun _ => "";
              gmsh_answer := inr "" |} None "ccxtools");
    reflexivity.
Defined.

(** A returning call on a document with nothing named like a face, in the
    form of the general case: the objects of the geometry step are the
    base, and the face of the constraint and of the mesh is the lateral
    face. *)
Lemma setup_returned_clean env doc0 solvertype dd w :
  face_free (Objects (doc (start doc0))) = true ->
  setup env doc0 solvertype = Returned dd w ->
  let n := DocName (doc (start doc0)) in
  let d := Objects (doc (start doc0)) in
  let base := d ++ shell_objects env d in
  exists ccxtools status nms,
    dd = doc w
    /\ setup_body env solvertype (start doc0)
       = Returned (frame_at (length base)) w
    /\ w = World n base
             (graph (length base) ccxtools (length d + 2) (length d + 2) nms)
             (geometry_calls env (length d)
              ++ analysis_calls (length base) ccxtools (length d + 2)
                   (length d + 2) status).
Proof.
  intros F H n d base.
  pose proof (setup_spec env doc0 solvertype) as S. rewrite H in S.
  destruct S as (base' & ccxtools & face & face' & status & nms
                 & _ & Est & Hg & Hbody & Hlen & _).
  destruct (setup_on_face_free env doc0 ccxtools status F Hg) as [nms' E].
  rewrite <- Est, H in E.
  assert (Hd : dd = doc (model_world env doc0 ccxtools status nms'))
    by congruence.
  assert (Hw : w = model_world env doc0 ccxtools status nms') by congruence.
  assert (Hb : length base = length base').
  { unfold base. rewrite length_app. fold d in Hlen. by rewrite Hlen. }
  assert (M : model_world env doc0 ccxtools status nms'
              = World n base
                  (graph (length base) ccxtools (length d + 2) (length d + 2)
                     nms')
                  (geometry_calls env (length d)
                   ++ analysis_calls (length base) ccxtools (length d + 2)
                        (length d + 2) status)).
  { unfold model_world, World, base. fold n d.
    rewrite length_app. cbn [length shell_objects].
    by rewrite <- app_assoc. }
  rewrite <- Hb in Hbody.
  exists ccxtools, status, nms'. split; [congruence|]. split; [done|].
  by rewrite Hw.
Qed.

Lemma lateral_face_slot env d n l lg :
  object_at (World n (d ++ shell_objects env d) l lg) (length d + 2)
  = Some (fresh_object PartFace "Face").
Proof.
  unfold object_at, World. cbn [doc Objects].
  by rewrite <- app_assoc, lookup_new.
Qed.

Lemma clean_faces env n d ccxtools face face' nms b :
  face_free d = true ->
  faces {| DocName := n;
           Objects := (d ++ shell_objects env d)
                      ++ graph b ccxtools face face' nms |}
  = [fresh_object PartFace "Face"].
Proof.
  intros F. by rewrite !faces_app, face_free_faces, graph_no_face.
Qed.

(** C5, the statement as the specification has it, on a document that
    holds an object named Face which is not a face: the call returns, the
    constraint references Edge2 of that object, in slot 0, and the face that
    is left of the cylinder is another object, Face003. *)
Lemma named_face_doc_constraint_misses_the_face :
  setup (headless (inr "")) (Some named_face_doc) "ccxtools"
  = Returned (doc named_face_world) named_face_world
  /\ setup_body (headless (inr "")) "ccxtools" (start (Some named_face_doc))
     = Returned (frame_at 6) named_face_world
  /\ prop_of named_face_world (con_disp_xyz (frame_at 6)) "References"
     = Some (VLinkSubList [(0, "Edge2")])
  /\ kind_of named_face_world 0 = Some (OtherType "App::FeaturePython")
  /\ faces (doc named_face_world) = [fresh_object PartFace "Face003"].
Proof. repeat split; reflexivity. Qed.

Ltac constraint_conjuncts Hbody Hf :=
  cbn [frame_at con_disp_xyz analysis];
  split; [exact Hbody|]; split; [member_of_graph|];
  split; [read_graph|]; split; [read_graph|]; split; [exact Hf|];
  split; [repeat split; read_graph|];
  split; [repeat split; read_graph|];
  split; [repeat split; read_graph|];
  split;
    [let axis := fresh "axis" in
     let Hax := fresh "Hax" in
     intros axis Hax; rewrite !elem_of_cons in Hax;
     destruct Hax as [->|[->|[->|Hax]]];
       [exists false; split; read_graph
       |exists false; split; read_graph
       |exists true; split; read_graph
       |by apply elem_of_nil in Hax]
    |].

(** C5, amended.  Every call of [setup] that returns has attached to the
    analysis a displacement constraint that references the edge "Edge2" of
    the object the document knows as Face, fixes z with the displacement
    0.0 and leaves x and y free; on every axis the flags fixed and free
    have opposite values.  When the document held no face-type object and
    no object with a name that starts with Face, as a new document does,
    the object referenced is the face that is left of the cylinder, the
    only face-type object of the document. *)
Theorem constraint_fixes_z_only_on_edge2 env doc0 solvertype dd w :
  setup env doc0 solvertype = Returned dd w ->
  exists fr face,
    setup_body env solvertype (start doc0) = Returned fr w
    /\ con_disp_xyz fr ∈ members w (analysis fr)
    /\ kind_of w (con_disp_xyz fr) = Some ConstraintDisplacement
    /\ prop_of w (con_disp_xyz fr) "References"
       = Some (VLinkSubList [(face, "Edge2")])
    /\ name_at (Objects (doc w)) face = Some "Face"
    /\ (fixed w (con_disp_xyz fr) "z" = Some (VBool true)
        /\ free w (con_disp_xyz fr) "z" = Some (VBool false)
        /\ displacement w (con_disp_xyz fr) "z" = Some (VFloat 0%float))
    /\ (fixed w (con_disp_xyz fr) "x" = Some (VBool false)
        /\ free w (con_disp_xyz fr) "x" = Some (VBool true))
    /\ (fixed w (con_disp_xyz fr) "y" = Some (VBool false)
        /\ free w (con_disp_xyz fr) "y" = Some (VBool true))
    /\ (forall axis, axis ∈ ["x"; "y"; "z"] ->
        exists b, fixed w (con_disp_xyz fr) axis = Some (VBool b)
                  /\ free w (con_disp_xyz fr) axis = Some (VBool (negb b)))
    /\ (face_free (Objects (doc (start doc0))) = true ->
        object_at w face = Some (fresh_object PartFace "Face")
        /\ faces dd = [fresh_object PartFace "Face"]).
Proof.
  intros H.
  destruct (face_free (Objects (doc (start doc0)))) eqn:F.
  - destruct (setup_returned_clean env doc0 solvertype dd w F H)
      as (ccxtools & status & nms & -> & Hbody & ->).
    set (d := Objects (doc (start doc0))) in *.
    set (base := d ++ shell_objects env d) in *.
    assert (Hf : name_at
                   (Objects
                      (doc (World (DocName (doc (start doc0))) base
                              (graph (length base) ccxtools (length d + 2)
                                 (length d + 2) nms)
                              (geometry_calls env (length d)
                               ++ analysis_calls (length base) ccxtools
                                    (length d + 2) (length d + 2) status))))
                   (length d + 2) = Some "Face").
    { unfold name_at, World, base. cbn [doc Objects].
      by rewrite <- app_assoc, lookup_new. }
    exists (frame_at (length base)), (length d + 2).
    constraint_conjuncts Hbody Hf.
    intros _. split; [apply lateral_face_slot|by apply clean_faces].
  - returned_run H.
    exists (frame_at (length base)), face.
    constraint_conjuncts Hbody Hf. discriminate.
Qed.

Lemma constraint_fixes_z_only_on_edge2_witness :
  exists fr face,
    setup_body (headless (inr "")) "ccxtools" (start None)
    = Returned fr ccxtools_world
    /\ con_disp_xyz fr ∈ members ccxtools_world (analysis fr)
    /\ kind_of ccxtools_world (con_disp_xyz fr) = Some ConstraintDisplacement
    /\ prop_of ccxtools_world (con_disp_xyz fr) "References"
       = Some (VLinkSubList [(face, "Edge2")])
    /\ name_at (Objects (doc ccxtools_world)) face = Some "Face"
    /\ (fixed ccxtools_world (con_disp_xyz fr) "z" = Some (VBool true)
        /\ free ccxtools_world (con_disp_xyz fr) "z" = Some (VBool false)
        /\ displacement ccxtools_world (con_disp_xyz fr) "z"
           = Some (VFloat 0%float))
    /\ (fixed ccxtools_world (con_disp_xyz fr) "x" = Some (VBool false)
        /\ free ccxtools_world (con_disp_xyz fr) "x" = Some (VBool true))
    /\ (fixed ccxtools_world (con_disp_xyz fr) "y" = Some (VBool false)
        /\ free ccxtools_world (con_disp_xyz fr) "y" = Some (VBool true))
    /\ (forall axis, axis ∈ ["x"; "y"; "z"] ->
        exists b,
          fixed ccxtools_world (con_disp_xyz fr) axis = Some (VBool b)
          /\ free ccxtools_world (con_disp_xyz fr) axis
             = Some (VBool (negb b)))
    /\ (face_free (Objects (doc (start None))) = true ->
        object_at ccxtools_world face = Some (fresh_object PartFace "Face")
        /\ faces (doc ccxtools_world) = [fresh_object PartFace "Face"]).
Proof.
  apply (constraint_fixes_z_only_on_edge2 (headless (inr "")) None "ccxtools"
           (doc ccxtools_world)).
  reflexivity.
Defined.





(** ** When [setup] returns, and how it fails *)



Lemma geometry_calls_split env b :
  geometry_calls env b
  = downgrade_calls env b
    ++ [RemoveObject "Face001"; RemoveObject "Face002"; Recompute].
Proof. unfold geometry_calls, downgrade_calls. by rewrite <- !app_assoc. Qed.









(** X19. On a new document, and on every document that holds nothing named
    like a face, a call of [setup] with a solver type that is not a known
    one raises the UnboundLocalError of line 118 after the geometry is
    built: the document is left with the one face and an analysis
    container that has no member, and the warning is the only line on the
    console. *)
Theorem unknown_solvertype_leaves_an_empty_analysis env doc0 solvertype :
  face_free (Objects (doc (start doc0))) = true ->
  known_solver solvertype = false ->
  exists w a,
    setup env doc0 solvertype = Raised (UnboundLocalError "solver_obj") w
    /\ console w = [Warning (unknown_solver_warning solvertype)]
    /\ faces (doc w) = [fresh_object PartFace "Face"]
    /\ kind_of w a = Some FemAnalysis
    /\ members w a = []
    /\ length (Objects (doc w))
       = length (Objects (doc (start doc0))) + 6.
Proof.
  intros F K. unfold setup, setup_body, bind.
  rewrite start_World.
  set (n := DocName (doc (start doc0))).
  set (d := Objects (doc (start doc0))) in *.
  rewrite (setup_geometry_clean env n d F), World_rebase.
  pose proof (setup_analysis_spec env solvertype n (d ++ shell_objects env d)
                (geometry_calls env (length d))) as A.
  destruct (setup_analysis env solvertype _) as [fr w|e w].
  - destruct A as (ccxtools & ? & ? & ? & ? & -> & _).
    by rewrite solver_type_known in K.
  - destruct A as (evs & Ec & (_ & _ & [(K' & _)|(_ & -> & a & ->)]) & Ho);
      [congruence|].
    destruct (Ho K) as [nm Hobjs].
    exists w, (length (d ++ shell_objects env d)). split; [done|].
    split.
    { unfold console. by rewrite Ec, omap_app, geometry_console. }
    split.
    { destruct w as [[n' objs] lg]. cbn [doc Objects] in Hobjs. subst objs.
      cbn [doc]. by rewrite faces_app, faces_app, face_free_faces. }
    unfold members, prop_of, kind_of, object_at.
    rewrite Hobjs, (lookup_app_r (d ++ shell_objects env d)) by done.
    rewrite Nat.sub_diag. split; [done|]. split; [done|].
    rewrite !length_app. unfold World. cbn [length shell_objects doc Objects].
    rewrite app_nil_r. lia.
Qed.

Lemma unknown_solvertype_leaves_an_empty_analysis_witness :
  exists w a,
    setup (headless (inr "")) None "elmer"
    = Raised (UnboundLocalError "solver_obj") w
    /\ console w = [Warning (unknown_solver_warning "elmer")]
    /\ faces (doc w) = [fresh_object PartFace "Face"]
    /\ kind_of w a = Some FemAnalysis
    /\ members w a = []
    /\ length (Objects (doc w)) = length (Objects (doc (start None))) + 6.
Proof.
  apply (unknown_solvertype_leaves_an_empty_analysis (headless (inr "")) None
           "elmer");
    reflexivity.
Defined.
